(** * Churn prediction service: trainer selection loop and HTTP handlers

    A shallow embedding of [Churn_App/backend/train_model.py] (the
    train-and-select loop and the metrics report) and of
    [Churn_App/backend/app.py] (the Flask handlers).

    Conventions.
    - Python floats are rationals [Q], with a separate NaN where pandas
      produces one; comparisons and arithmetic are exact. The scores the
      trainer compares are such rationals: a nan score is not represented.
    - Text is UTF-8 encoded, one [ascii] per byte.
    - A raised exception is [Raise msg]; a handler without [try] that raises
      answers 500, a handler with [try/except] answers 400 with [str(e)].
    - Third-party calls whose result the code only forwards (fitting,
      scoring, SHAP, CSV parsing) are Section variables or record fields. *)

From Stdlib Require Import QArith Qround Qabs Lqa Sorted Permutation.
From stdpp Require Import gmap strings list sorting.

Local Open Scope string_scope.

(** ** Exceptions *)

Definition exn := string.

Inductive result (A : Type) : Type :=
  | Ok (a : A)
  | Raise (e : exn).
Arguments Ok {A} a.
Arguments Raise {A} e.

#[global] Instance result_ret : MRet result := λ A a, Ok a.
#[global] Instance result_bind : MBind result := λ A B f r,
  match r with
  | Ok a => f a
  | Raise e => Raise e
  end.

(** ** Python values *)

(** A cell of a pandas column: a number, NaN, or a string (object dtype). *)
Inductive cell : Type :=
  | CNaN
  | CNum (q : Q)
  | CStr (s : string).

#[global] Instance Q_eq_dec : EqDecision Q.
Proof. solve_decision. Defined.
#[global] Instance cell_eq_dec : EqDecision cell.
Proof. solve_decision. Defined.

Definition cell_enc (c : cell) : unit + (Z * positive) + string :=
  match c with
  | CNaN => inl (inl tt)
  | CNum q => inl (inr (Qnum q, Qden q))
  | CStr s => inr s
  end.
Definition cell_dec (x : unit + (Z * positive) + string) : cell :=
  match x with
  | inl (inl _) => CNaN
  | inl (inr (n, d)) => CNum (Qmake n d)
  | inr s => CStr s
  end.
#[global] Instance cell_countable : Countable cell.
Proof.
  refine (inj_countable' cell_enc cell_dec _).
  intros [| [n d] | s]; reflexivity.
Defined.

(** A JSON value as [json.load] / [jsonify] see it; an object is a Python
    dict, kept in insertion order. *)
#[warnings="-register-all"]
Inductive json : Type :=
  | JNull
  | JBool (b : bool)
  | JNum (q : Q)
  | JNaN
  | JStr (s : string)
  | JArr (l : list json)
  | JObj (l : list (string * json)).

(** Python dict with string keys: [d.get(k)], [d[k] = v], [k in d]. *)
Fixpoint dict_get {V : Type} (k : string) (d : list (string * V)) : option V :=
  match d with
  | [] => None
  | (k', v) :: d' => if decide (k' = k) then Some v else dict_get k d'
  end.

Fixpoint dict_set {V : Type} (k : string) (v : V) (d : list (string * V))
    : list (string * V) :=
  match d with
  | [] => [(k, v)]
  | (k', v') :: d' =>
      if decide (k' = k) then (k, v) :: d' else (k', v') :: dict_set k v d'
  end.

(** [dict(pairs)] and dict comprehensions: later pairs overwrite. *)
Definition dict_of {V : Type} (pairs : list (string * V)) : list (string * V) :=
  fold_left (λ d p, dict_set p.1 p.2 d) pairs [].

Definition cell_json (c : cell) : json :=
  match c with
  | CNaN => JNaN
  | CNum q => JNum q
  | CStr s => JStr s
  end.

(** Python truthiness of a JSON value. *)
Definition truthy (j : json) : bool :=
  match j with
  | JNull => false
  | JBool b => b
  | JNum q => negb (Qeq_bool q 0)
  | JNaN => true
  | JStr s => negb (String.eqb s "")
  | JArr l => negb (Nat.eqb (length l) 0)
  | JObj l => negb (Nat.eqb (length l) 0)
  end.

(** ** Rounding: Python's [round(x, n)], half to even on the exact value. *)

Definition round_half_even (x : Q) : Z :=
  let f := Qfloor x in
  let r := (x - inject_Z f)%Q in
  match Qcompare r (1 # 2) with
  | Lt => f
  | Gt => (f + 1)%Z
  | Eq => if Z.even f then f else (f + 1)%Z
  end.

Definition py_round (x : Q) (n : nat) : Q :=
  let scale := (10 ^ Z.of_nat n)%Z in
  Qmake (round_half_even (x * inject_Z scale)%Q) (Z.to_pos scale).

(** ** pandas: the part of [DataFrame] the two scripts use *)

(** Columns in order; pandas allows a label to occur twice. [index_len] is
    the number of rows. *)
Record DataFrame : Type := mkDataFrame {
  index_len : nat;
  columns : list (string * list cell)
}.

Definition labelled (c : string) (p : string * list cell) : bool :=
  bool_decide (p.1 = c).

(** [df[c]] used as a Series, and [df.groupby(c)]: [KeyError] when the label
    is absent; a repeated label does not give a one-dimensional column, and
    both [groupby] and the scalar bucket functions raise on it. *)
Definition get_col (c : string) (d : DataFrame) : result (list cell) :=
  match List.filter (labelled c) (columns d) with
  | [] => Raise ("KeyError: " ++ c)
  | [(_, v)] => Ok v
  | _ => Raise ("ValueError: " ++ c ++ " is not 1-dimensional")
  end.

(** [df[c] = v]: every column labelled [c] is replaced; an absent label is
    appended as the last column. *)
Definition set_col (c : string) (v : list cell) (d : DataFrame) : DataFrame :=
  if existsb (labelled c) (columns d)
  then mkDataFrame (index_len d)
         (map (λ p, if labelled c p then (c, v) else p) (columns d))
  else mkDataFrame (index_len d) (columns d ++ [(c, v)])%list.

(** [df[c] = python_list]: the list must be as long as the index. *)
Definition set_col_list (c : string) (v : list cell) (d : DataFrame)
    : result DataFrame :=
  if Nat.eqb (length v) (index_len d) then Ok (set_col c v d)
  else Raise "ValueError: Length of values does not match length of index".

(** [df.empty]: some axis has length zero. *)
Definition df_empty (d : DataFrame) : bool :=
  Nat.eqb (index_len d) 0 || Nat.eqb (length (columns d)) 0.

(** [str.strip()].  Text is held UTF-8 encoded, one [ascii] per byte.
    The characters removed are those of [str.isspace()]: U+0009..U+000D,
    U+001C..U+0020, U+0085, U+00A0, U+1680, U+2000..U+200A, U+2028, U+2029,
    U+202F, U+205F and U+3000, of one, two or three bytes each. *)
Definition is_space (a : Ascii.ascii) : bool :=
  let n := Ascii.nat_of_ascii a in
  Nat.eqb n 32 || (Nat.leb 9 n && Nat.leb n 13) || (Nat.leb 28 n && Nat.leb n 31).

Definition is_space2 (a b : Ascii.ascii) : bool :=
  let n := Ascii.nat_of_ascii b in
  Nat.eqb (Ascii.nat_of_ascii a) 194 && (Nat.eqb n 133 || Nat.eqb n 160).

Definition is_space3 (a b c : Ascii.ascii) : bool :=
  let x := Ascii.nat_of_ascii a in
  let y := Ascii.nat_of_ascii b in
  let z := Ascii.nat_of_ascii c in
  (Nat.eqb x 225 && Nat.eqb y 154 && Nat.eqb z 128)
  || (Nat.eqb x 226 && Nat.eqb y 128
      && ((Nat.leb 128 z && Nat.leb z 138)
          || Nat.eqb z 168 || Nat.eqb z 169 || Nat.eqb z 175))
  || (Nat.eqb x 226 && Nat.eqb y 129 && Nat.eqb z 159)
  || (Nat.eqb x 227 && Nat.eqb y 128 && Nat.eqb z 128).

Fixpoint lstrip (s : string) : string :=
  match s with
  | String a s1 =>
      if is_space a then lstrip s1
      else match s1 with
           | String b s2 =>
               if is_space2 a b then lstrip s2
               else match s2 with
                    | String c s3 => if is_space3 a b c then lstrip s3 else s
                    | EmptyString => s
                    end
           | EmptyString => s
           end
  | EmptyString => EmptyString
  end.

(** The text is cut where only white space follows.  No white-space
    character starts with a continuation byte, so the cut falls between
    characters. *)
Fixpoint rstrip (s : string) : string :=
  match s with
  | String a s' =>
      match lstrip s with
      | EmptyString => EmptyString
      | _ => String a (rstrip s')
      end
  | EmptyString => EmptyString
  end.

Definition strip (s : string) : string := rstrip (lstrip s).

(** [df.columns = df.columns.str.strip()] *)
Definition strip_columns (d : DataFrame) : DataFrame :=
  mkDataFrame (index_len d) (map (λ p, (strip p.1, p.2)) (columns d)).

(** [series.map({"Yes": 1, "No": 0})]: anything else becomes NaN. *)
Definition map_yes_no (c : cell) : cell :=
  match c with
  | CStr s => if String.eqb s "Yes" then CNum 1
              else if String.eqb s "No" then CNum 0 else CNaN
  | _ => CNaN
  end.

(** [series.apply(f)] for a scalar function that may raise. *)
Fixpoint apply {A : Type} (f : cell → result A) (l : list cell) : result (list A) :=
  match l with
  | [] => Ok []
  | c :: l' => y ← f c; ys ← apply f l'; Ok (y :: ys)
  end.

(** [df[c].apply(f)] *)
Definition apply_col {A : Type} (c : string) (f : cell → result A)
    (d : DataFrame) : result (list A) :=
  col ← get_col c d; apply f col.

(** [df.to_dict(orient="records")]: one dict per row. *)
Definition record_at (i : nat) (d : DataFrame) : list (string * cell) :=
  dict_of (map (λ p, (p.1, nth i p.2 CNaN)) (columns d)).

Definition to_records (d : DataFrame) : list (list (string * cell)) :=
  map (λ i, record_at i d) (seq 0 (index_len d)).

(** *** [df.groupby(key)[val].mean().to_dict()] *)

Definition is_nan (c : cell) : bool :=
  match c with CNaN => true | _ => false end.
Definition is_str (c : cell) : bool :=
  match c with CStr _ => true | _ => false end.

(** Rows whose key is NaN belong to no group. *)
Definition keyed_rows (ks vs : list cell) : list (cell * cell) :=
  List.filter (λ p, negb (is_nan p.1)) (zip ks vs).

Definition add_to_group (m : gmap cell (list cell)) (p : cell * cell)
    : gmap cell (list cell) :=
  <[p.1 := (default [] (m !! p.1) ++ [p.2])%list]> m.

Definition group_rows (rows : list (cell * cell)) : gmap cell (list cell) :=
  fold_left add_to_group rows ∅.

Definition numbers (vs : list cell) : list Q :=
  omap (λ c, match c with CNum q => Some q | _ => None end) vs.

Definition Qsum (qs : list Q) : Q := fold_right Qplus 0%Q qs.

(** Mean of a group, NaN skipped; NaN when nothing is left. *)
Definition mean (vs : list cell) : cell :=
  match numbers vs with
  | [] => CNaN
  | qs => CNum (Qsum qs / inject_Z (Z.of_nat (length qs)))%Q
  end.

Definition groupby_mean (key val : string) (d : DataFrame)
    : result (gmap cell cell) :=
  ks ← get_col key d;
  vs ← get_col val d;
  let rows := keyed_rows ks vs in
  if existsb (λ p, is_str p.2) rows
  then Raise "TypeError: Could not convert to numeric"
  else Ok (mean <$> group_rows rows).

(** [pd.to_numeric(series, errors="coerce")] on one cell; [parse] reads a
    number off a string as Python does, [None] when it cannot. *)
Definition to_numeric (parse : string → option Q) (c : cell) : cell :=
  match c with
  | CStr s => match parse s with Some q => CNum q | None => CNaN end
  | _ => c
  end.

(** The rows of a column a boolean mask keeps. *)
Fixpoint select_rows {A : Type} (mask : list bool) (col : list A) : list A :=
  match mask, col with
  | b :: mask', x :: col' =>
      if b then x :: select_rows mask' col' else select_rows mask' col'
  | _, _ => []
  end.

(** [df.dropna(subset=[c])]: the rows whose cell under [c] is NaN go, in
    every column. *)
Definition dropna (c : string) (d : DataFrame) : result DataFrame :=
  col ← get_col c d;
  let mask := map (λ x, negb (is_nan x)) col in
  Ok {| index_len := length (select_rows mask col);
        columns := map (λ p, (p.1, select_rows mask p.2)) (columns d) |}.

(** [df.drop(columns=[c])]: every column labelled [c] goes; [KeyError] when
    there is none. *)
Definition drop_columns (c : string) (d : DataFrame) : result DataFrame :=
  if existsb (labelled c) (columns d)
  then Ok {| index_len := index_len d;
             columns := List.filter (λ p, negb (labelled c p)) (columns d) |}
  else Raise ("KeyError: " ++ c ++ " not found in axis").

(** ** scikit-learn and SHAP objects, as far as the scripts look into them *)

Definition Matrix := list (list Q).

Record Classifier : Type := mkClassifier {
  coef_ : option (list (list Q));
  feature_importances_ : option (list Q)
}.

(** An entry of [ColumnTransformer.transformers_]. *)
Inductive Transformer : Type :=
  | OneHotEncoder (get_feature_names_out : list string → result (list string))
  | OtherTransformer.

Record Preprocessor : Type := mkPreprocessor {
  transformers_ : list (string * Transformer * list string);
  transform : DataFrame → result Matrix;
  pre_get_feature_names_out : result (list string)
}.

(** A fitted pipeline [Pipeline([("pre", ...), ("clf", ...)])]. *)
Record Pipeline : Type := mkPipeline {
  pre : Preprocessor;
  clf : Classifier;
  pl_predict : DataFrame → result (list Z);
  pl_predict_proba : DataFrame → result Matrix
}.

(** [shap_values = explainer(X)]; [abs_mean_0] is
    [shap_values.abs.mean(0).tolist()]. *)
Record Explanation : Type := mkExplanation {
  values : Matrix;
  base_values : list Q;
  abs_mean_0 : list Q
}.

(** [a[0]] on a Python list or array. *)
Definition first {A : Type} (l : list A) : result A :=
  match l with
  | x :: _ => Ok x
  | [] => Raise "IndexError: index 0 is out of bounds"
  end.

(** [a[0][1]] and [a[:, 1]] on a two-dimensional array. *)
Definition second {A : Type} (l : list A) : result A :=
  match l with
  | _ :: x :: _ => Ok x
  | _ => Raise "IndexError: index 1 is out of bounds"
  end.

Fixpoint column1 (m : Matrix) : result (list Q) :=
  match m with
  | [] => Ok []
  | r :: m' => x ← second r; xs ← column1 m'; Ok (x :: xs)
  end.

(** * train_model.py *)

Module Trainer.

(** Section 2 of the script, load and clean: the feature frame [X] and the
    label vector [y] it hands to the train/test split. *)
Record Data : Type := mkData {
  X : DataFrame;
  y : list cell
}.

Section Clean.
(** Python's reading of a number off a CSV field. *)
Variable parse_number : string → option Q.

Definition clean (df : DataFrame) : result Data :=
  total ← get_col "TotalCharges" df;
  let df := set_col "TotalCharges" (map (to_numeric parse_number) total) df in
  df ← dropna "TotalCharges" df;
  df ← drop_columns "customerID" df;
  X ← drop_columns "Churn" df;
  churn ← get_col "Churn" df;
  Ok {| X := X; y := map map_yes_no churn |}.
End Clean.

Inductive BaseClf : Type :=
  | LogisticRegression
  | RandomForestClassifier
  | XGBClassifier.

(** [models], in insertion order. *)
Definition models : list (string * BaseClf) :=
  [ ("Logistic Regression", LogisticRegression);
    ("Random Forest", RandomForestClassifier);
    ("XGBoost", XGBClassifier) ].

Definition Grid := list (string * list json).

Definition param_grids : list (string * Grid) :=
  [ ("Logistic Regression",
      [ ("clf__C", [JNum (1 # 10); JNum 1; JNum 10]);
        ("clf__solver", [JStr "liblinear"; JStr "lbfgs"]) ]);
    ("Random Forest",
      [ ("clf__n_estimators", [JNum 100; JNum 200]);
        ("clf__max_depth", [JNull; JNum 10; JNum 20]);
        ("clf__min_samples_split", [JNum 2; JNum 5]) ]);
    ("XGBoost",
      [ ("clf__n_estimators", [JNum 200; JNum 300]);
        ("clf__max_depth", [JNum 4; JNum 6; JNum 8]);
        ("clf__learning_rate", [JNum (5 # 100); JNum (1 # 10)]);
        ("clf__subsample", [JNum (8 # 10); JNum 1]);
        ("clf__colsample_bytree", [JNum (8 # 10); JNum 1]) ]) ].

(** The module-level variables the loop updates. *)
Record State : Type := mkState {
  metrics : list (string * json);
  best_model : option Pipeline;
  best_model_name : option string;
  best_auc : Q
}.

Definition initial : State :=
  {| metrics := []; best_model := None; best_model_name := None;
     best_auc := (-1)%Q |}.

(** [get_feature_names(preprocessor)] *)
Fixpoint feature_names_loop (ts : list (string * Transformer * list string))
    (feature_names : list string) : result (list string) :=
  match ts with
  | [] => Ok feature_names
  | (name, trans, cols) :: ts' =>
      if String.eqb name "num" then
        feature_names_loop ts' (feature_names ++ cols)%list
      else if String.eqb name "cat" then
        match trans with
        | OneHotEncoder get_feature_names_out =>
            out ← get_feature_names_out cols;
            feature_names_loop ts' (feature_names ++ out)%list
        | OtherTransformer => feature_names_loop ts' feature_names
        end
      else feature_names_loop ts' feature_names
  end.

Definition get_feature_names (preprocessor : Preprocessor) : result (list string) :=
  feature_names_loop (transformers_ preprocessor) [].

(** [sorted(pairs, key=lambda x: -abs(x[1]))]: ascending in the key, stable. *)
Definition sort_key (x : string * Q) : Q := (- Qabs x.2)%Q.

Fixpoint insert_sorted (x : string * Q) (l : list (string * Q))
    : list (string * Q) :=
  match l with
  | [] => [x]
  | y :: l' =>
      if Qle_bool (sort_key x) (sort_key y) then x :: y :: l'
      else y :: insert_sorted x l'
  end.

Definition py_sorted (l : list (string * Q)) : list (string * Q) :=
  fold_right insert_sorted [] l.

(** The [hasattr] cascade choosing the importance vector. *)
Definition importance_of (c : Classifier) : result (option (list Q)) :=
  match coef_ c with
  | Some rows => row ← first rows; Ok (Some (map Qabs row))
  | None =>
      match feature_importances_ c with
      | Some imp => Ok (Some imp)
      | None => Ok None
      end
  end.

Definition top20 (feature_names : list string) (importance : list Q)
    : list (string * Q) :=
  take 20 (py_sorted (zip feature_names importance)).

(** The body of the [try] block. *)
Definition extract_importance (model : Pipeline) : result (list (string * Q)) :=
  feature_names ← get_feature_names (pre model);
  importance ← importance_of (clf model);
  match importance with
  | Some imp =>
      Ok (dict_of (map (λ x, (x.1, py_round x.2 4)) (top20 feature_names imp)))
  | None => Ok []
  end.

(** [feature_importance] after the [try/except]: it starts as the empty dict
    and the handler only prints. *)
Definition feature_importance (model : Pipeline) : list (string * Q) :=
  match extract_importance model with
  | Ok d => d
  | Raise _ => []
  end.

Definition metrics_entry (auc acc : Q) (fi : list (string * Q)) : json :=
  JObj [ ("auc", JNum (py_round auc 3));
         ("accuracy", JNum (py_round acc 3));
         ("feature_importance", JObj (map (λ x, (x.1, JNum x.2)) fi)) ].

(** What the script leaves behind. *)
Inductive Outcome : Type :=
  | Crashed (e : exn)
  | Exit1
  | Saved (model_pkl : Pipeline) (metrics_json : json).

Section Run.
(** The held-out split and the library calls of one run. *)
Variable X_test : DataFrame.
Variable y_test : list Z.
Variable GridSearchCV_fit : BaseClf → Grid → result Pipeline.
Variable Pipeline_fit : BaseClf → result Pipeline.
Variable roc_auc_score : list Z → list Q → result Q.
Variable accuracy_score : list Z → list Z → result Q.

(** Fit one family and score it on the held-out rows. *)
Definition evaluate (fam : string * BaseClf) : result (Pipeline * Q * Q) :=
  let param_grid := default [] (dict_get fam.1 param_grids) in
  model ← (if negb (Nat.eqb (length param_grid) 0)
           then GridSearchCV_fit fam.2 param_grid
           else Pipeline_fit fam.2);
  preds ← pl_predict model X_test;
  proba ← pl_predict_proba model X_test;
  probs ← column1 proba;
  auc ← roc_auc_score y_test probs;
  acc ← accuracy_score y_test preds;
  Ok (model, auc, acc).

(** One iteration of the [for name, base_clf in models.items()] loop.
    Scores are held as rationals, and [auc > best_auc] is decided on them; a
    nan score, for which the comparison is False, is not represented. *)
Definition iteration (st : State) (fam : string * BaseClf) : result State :=
  r ← evaluate fam;
  let '(model, auc, acc) := r in
  let metrics' :=
    dict_set fam.1 (metrics_entry auc acc (feature_importance model))
             (metrics st) in
  if Qlt_le_dec (best_auc st) auc
  then Ok {| metrics := metrics'; best_model := Some model;
             best_model_name := Some fam.1; best_auc := auc |}
  else Ok {| metrics := metrics'; best_model := best_model st;
             best_model_name := best_model_name st;
             best_auc := best_auc st |}.

Fixpoint train_loop (fams : list (string * BaseClf)) (st : State)
    : result State :=
  match fams with
  | [] => Ok st
  | fam :: fams' => st' ← iteration st fam; train_loop fams' st'
  end.

(** Section 8 of the script: exit, or dump the model and the report. *)
Definition save (st : State) : Outcome :=
  match best_model st with
  | None => Exit1
  | Some m =>
      let name := match best_model_name st with
                  | Some n => JStr n
                  | None => JNull
                  end in
      Saved m (JObj (dict_set "current_model" name (metrics st)))
  end.

Definition main : Outcome :=
  match train_loop models initial with
  | Raise e => Crashed e
  | Ok st => save st
  end.
End Run.

End Trainer.

(** * app.py *)

Module App.

(** The three paths the server looks at. [metrics_json] is [None] when
    [os.path.exists(METRICS_PATH)] is false, otherwise what [json.load]
    gives (or raises). *)
Record Disk : Type := mkDisk {
  model_pkl : option Pipeline;
  dataset_csv : option (result DataFrame);
  metrics_json : option (result json)
}.

(** The module globals [model] and [df], and the disk the handlers read. *)
Record Server : Type := mkServer {
  model : Pipeline;
  df : DataFrame;
  disk : Disk
}.

(** Import-time code: both files must exist; the label column is mapped. *)
Definition startup (files : Disk) : result Server :=
  match model_pkl files with
  | None => Raise "FileNotFoundError: model.pkl not found. Please run train_model.py first."
  | Some loaded =>
      match dataset_csv files with
      | None => Raise "FileNotFoundError: Telco_Cust_Churn.csv not found."
      | Some read_csv =>
          raw ← read_csv;
          let stripped := strip_columns raw in
          churn ← get_col "Churn" stripped;
          Ok {| model := loaded;
                df := set_col "Churn" (map map_yes_no churn) stripped;
                disk := files |}
      end
  end.

Inductive Response (A : Type) : Type :=
  | Ok200 (body : A)
  | Bad400 (error : string)
  | Error500.
Arguments Ok200 {A} body.
Arguments Bad400 {A} error.
Arguments Error500 {A}.

(** [try: ... except Exception as e: return jsonify({"error": str(e)}), 400] *)
Definition try400 {A : Type} (r : result (Response A)) : Response A :=
  match r with
  | Ok resp => resp
  | Raise e => Bad400 e
  end.

(** A view without [try]: Flask answers 500 when it raises. *)
Definition or500 {A : Type} (r : result A) : Response A :=
  match r with
  | Ok body => Ok200 body
  | Raise _ => Error500
  end.

(** [metrics.get(key)] on whatever [json.load] returned. *)
Definition json_get (j : json) (key : string) : result json :=
  match j with
  | JObj d => Ok (default JNull (dict_get key d))
  | _ => Raise "AttributeError: object has no attribute 'get'"
  end.

(** The block shared by three views:
    [if os.path.exists(METRICS_PATH): metrics = json.load(f);
     active_model = metrics.get("current_model")]. *)
Definition load_metrics (files : Disk) (default_metrics : json)
    : result (json * json) :=
  match metrics_json files with
  | None => Ok (default_metrics, JNull)
  | Some loaded =>
      metrics ← loaded;
      active_model ← json_get metrics "current_model";
      Ok (metrics, active_model)
  end.

(** ** /api/health *)

Record HealthBody : Type := mkHealthBody {
  status : string;
  model_loaded : bool;
  health_active_model : json
}.

Definition health (srv : Server) : Response HealthBody * Server :=
  (or500 (r ← load_metrics (disk srv) JNull;
          Ok {| status := "ok"; model_loaded := true;
                health_active_model := r.2 |}),
   srv).

(** ** /api/dashboard *)

(** [t <= n] on a cell: NaN compares false, a string raises. *)
Definition cell_le (t : cell) (n : Q) : result bool :=
  match t with
  | CNum q => Ok (Qle_bool q n)
  | CNaN => Ok false
  | CStr _ => Raise "TypeError: '<=' not supported between instances of 'str' and 'int'"
  end.

Definition tenure_bucket (t : cell) : result string :=
  b ← cell_le t 12;
  if b : bool then Ok "0-12"
  else b' ← cell_le t 24;
       if b' : bool then Ok "13-24" else Ok "25+".

Definition monthly_bucket (m : cell) : result string :=
  b ← cell_le m 50;
  if b : bool then Ok "0-50"
  else b' ← cell_le m 100;
       if b' : bool then Ok "51-100" else Ok "101+".

(** Code that reads and assigns the global [df] and may raise half-way. *)
Definition Handler (A : Type) : Type := DataFrame → result A * DataFrame.

Definition h_ret {A : Type} (a : A) : Handler A := λ d, (Ok a, d).
Definition h_bind {A B : Type} (m : Handler A) (f : A → Handler B) : Handler B :=
  λ d, match m d with
       | (Ok a, d') => f a d'
       | (Raise e, d') => (Raise e, d')
       end.
(** Evaluate an expression over the current [df]. *)
Definition h_read {A : Type} (f : DataFrame → result A) : Handler A :=
  λ d, (f d, d).
(** [df[c] = series] *)
Definition h_assign (c : string) (v : list cell) : Handler unit :=
  λ d, (Ok tt, set_col c v d).

Notation "x ⇐ m ; k" := (h_bind m (λ x, k))
  (at level 20, m at level 100, k at level 200, only parsing, right associativity).

Record DashboardBody : Type := mkDashboardBody {
  contract : gmap cell cell;
  tenure : gmap cell cell;
  monthly : gmap cell cell;
  dashboard_metrics : json;
  dashboard_active_model : json
}.

Definition dashboard_body (files : Disk) : Handler DashboardBody :=
  contract_rates ⇐ h_read (groupby_mean "Contract" "Churn");
  buckets ⇐ h_read (apply_col "tenure" tenure_bucket);
  _ ⇐ h_assign "TenureBucket" (map CStr buckets);
  tenure_rates ⇐ h_read (groupby_mean "TenureBucket" "Churn");
  buckets' ⇐ h_read (apply_col "MonthlyCharges" monthly_bucket);
  _ ⇐ h_assign "MonthlyBucket" (map CStr buckets');
  monthly_rates ⇐ h_read (groupby_mean "MonthlyBucket" "Churn");
  r ⇐ h_read (λ _, load_metrics files (JObj []));
  h_ret {| contract := contract_rates; tenure := tenure_rates;
           monthly := monthly_rates; dashboard_metrics := r.1;
           dashboard_active_model := r.2 |}.

Definition dashboard (srv : Server) : Response DashboardBody * Server :=
  let '(r, df') := dashboard_body (disk srv) (df srv) in
  (or500 r, {| model := model srv; df := df'; disk := disk srv |}).

(** ** /api/feature-importance *)

(** [key in metrics] for a dict with string keys. *)
Definition py_in (key : json) (d : list (string * json)) : result bool :=
  match key with
  | JStr s => Ok (bool_decide (is_Some (dict_get s d)))
  | JArr _ | JObj _ => Raise "TypeError: unhashable type"
  | _ => Ok false
  end.

Record ImportanceBody : Type := mkImportanceBody {
  importance_active_model : json;
  importance_feature_importance : json
}.

(** [metrics[active_model].get("feature_importance", {})] *)
Definition entry_importance (key : json) (d : list (string * json))
    : result json :=
  match key with
  | JStr s =>
      match dict_get s d with
      | Some (JObj entry) =>
          Ok (default (JObj []) (dict_get "feature_importance" entry))
      | Some _ => Raise "AttributeError: object has no attribute 'get'"
      | None => Raise ("KeyError: " ++ s)
      end
  | _ => Raise "KeyError"
  end.

Definition feature_importance_body (files : Disk) : result ImportanceBody :=
  match metrics_json files with
  | None =>
      Ok {| importance_active_model := JNull;
            importance_feature_importance := JObj [] |}
  | Some loaded =>
      metrics ← loaded;
      active_model ← json_get metrics "current_model";
      fi ← match metrics with
           | JObj d =>
               found ← (if truthy active_model then py_in active_model d
                        else Ok false);
               if found : bool then entry_importance active_model d
               else Ok (JObj [])
           | _ => Ok (JObj [])
           end;
      Ok {| importance_active_model := active_model;
            importance_feature_importance := fi |}
  end.

Definition feature_importance (srv : Server) : Response ImportanceBody * Server :=
  (or500 (feature_importance_body (disk srv)), srv).

Record PredictBody : Type := mkPredictBody {
  prediction : Z;
  probability : Q
}.

Record ExplainBody : Type := mkExplainBody {
  features : list (string * cell);
  shap_values : list Q;
  base_value : Q
}.

Record Upload : Type := mkUpload {
  filename : string;
  stream : string
}.

Record BatchBody : Type := mkBatchBody {
  predictions : list (list (string * cell));
  batch_feature_importance : list (string * Q)
}.

Section Views.
(** [pd.DataFrame([data])], [pd.read_csv(file)], [shap.Explainer(clf, X)] *)
Variable pd_DataFrame : list json → result DataFrame.
Variable pd_read_csv : Upload → result DataFrame.
Variable shap_Explainer :
  Classifier → Matrix → result (Matrix → result Explanation).

(** ** /api/predict *)
Definition predict (srv : Server) (data : json) : Response PredictBody * Server :=
  (try400 (
     df_input ← pd_DataFrame [data];
     preds ← pl_predict (model srv) df_input;
     pred ← first preds;
     proba ← pl_predict_proba (model srv) df_input;
     row ← first proba;
     prob ← second row;
     Ok (Ok200 {| prediction := pred; probability := prob |})),
   srv).

(** ** /api/explain *)
Definition explain (srv : Server) (data : json) : Response ExplainBody * Server :=
  (try400 (
     df_input ← pd_DataFrame [data];
     X_transformed ← transform (pre (model srv)) df_input;
     explainer ← shap_Explainer (clf (model srv)) X_transformed;
     sv ← explainer X_transformed;
     record ← first (to_records df_input);
     vals ← first (values sv);
     base ← first (base_values sv);
     Ok (Ok200 {| features := record; shap_values := vals;
                  base_value := base |})),
   srv).

(** ** /api/batch-predict *)

(** The inner [try] block. *)
Definition shap_batch (srv : Server) (df_input : DataFrame)
    : result (list (string * Q)) :=
  X_transformed ← transform (pre (model srv)) df_input;
  explainer ← shap_Explainer (clf (model srv)) X_transformed;
  sv ← explainer X_transformed;
  feature_names ← pre_get_feature_names_out (pre (model srv));
  Ok (dict_of (zip feature_names (abs_mean_0 sv))).

Definition batch_predict (srv : Server) (files : list (string * Upload))
    : Response BatchBody * Server :=
  (try400 (
     match dict_get "file" files with
     | None => Ok (Bad400 "No file uploaded")
     | Some file =>
         raw ← pd_read_csv file;
         let df_input := strip_columns raw in
         if df_empty df_input then Ok (Bad400 "Uploaded CSV is empty")
         else
           preds ← pl_predict (model srv) df_input;
           proba ← pl_predict_proba (model srv) df_input;
           probs ← column1 proba;
           results ← set_col_list "prediction"
                       (map (λ p, CNum (inject_Z p)) preds) df_input;
           results ← set_col_list "probability" (map CNum probs) results;
           let feature_importance :=
             match shap_batch srv df_input with
             | Ok d => d
             | Raise _ => []
             end in
           Ok (Ok200 {| predictions := to_records results;
                        batch_feature_importance := feature_importance |})
     end),
   srv).
End Views.

End App.

(** * Vocabulary of the statements *)

(** [dict(pairs)] continued from a dict that already has entries. *)
Definition dict_fold {V : Type} (pairs acc : list (string * V))
    : list (string * V) :=
  fold_left (λ d p, dict_set p.1 p.2 d) pairs acc.

(** The order [sorted] establishes. *)
Definition key_le (x y : string * Q) : Prop :=
  (Trainer.sort_key x <= Trainer.sort_key y)%Q.

(** [metrics] has an entry of the trainer's making under [n]. *)
Definition has_entry (n : string) (ms : list (string * json)) : Prop :=
  ∃ a c fi, dict_get n ms = Some (Trainer.metrics_entry a c fi).

(** Whenever a best model is held, its name is one of [N] and [metrics]
    has that family's entry. *)
Definition best_recorded (N : list string) (st : Trainer.State) : Prop :=
  ∀ m, Trainer.best_model st = Some m →
       ∃ n, Trainer.best_model_name st = Some n ∧ n ∈ N ∧
            has_entry n (Trainer.metrics st).

(** Every column labelled [c] holds [v], and there is one. *)
Definition assigned (c : string) (v : list cell) (d : DataFrame) : Prop :=
  existsb (labelled c) (columns d) = true ∧
  Forall (λ p, labelled c p = true → p = (c, v)) (columns d).


(** A column under neither bucket label. *)
Definition other_column (p : string * list cell) : bool :=
  negb (labelled "TenureBucket" p) && negb (labelled "MonthlyBucket" p).

(** The values of the rows keyed [k], in row order. *)
Definition group_of (k : cell) (rows : list (cell * cell)) : list cell :=
  (List.filter (λ p, bool_decide (p.1 = k)) rows).*2.

(** A label as [map_yes_no] leaves it when the source had "Yes" or "No". *)
Definition label01 (c : cell) : Prop := c = CNum 0 ∨ c = CNum 1.

Definition labels_normalized (d : DataFrame) : Prop :=
  ∃ vs, get_col "Churn" d = Ok vs ∧ Forall label01 vs.

(** A churn rate: a number in [0,1]. *)
Definition rate (r : cell) : Prop := ∃ q, r = CNum q ∧ (0 <= q <= 1)%Q.

(** Every column has one cell per row of the index. *)
Definition well_formed (d : DataFrame) : Prop :=
  Forall (λ p, length p.2 = index_len d) (columns d).

(** The mask of the rows cleaning keeps, read off the raw "TotalCharges". *)
Definition kept (parse : string → option Q) (total : list cell) : list bool :=
  map (λ x, negb (is_nan (to_numeric parse x))) total.

(** The pairs of one magnitude, in the order they occur. *)
Definition of_magnitude (k : Q) (l : list (string * Q)) : list (string * Q) :=
  List.filter (λ x, Qeq_bool (Qabs x.2) k) l.

(** * A small concrete run

    Stand-ins for the library calls, a four-row dataset and the requests
    the statements below are exercised on. *)

Module Demo.

Definition preprocessor : Preprocessor :=
  {| transformers_ :=
       [ ("num", OtherTransformer, ["tenure"; "MonthlyCharges"]);
         ("cat",
          OneHotEncoder
            (λ cols, Ok (flat_map (λ c, [c ++ "_No"; c ++ "_Yes"]) cols)),
          ["Partner"]) ];
     transform := λ d, Ok (replicate (index_len d) [1; 0; 1; 0]%Q);
     pre_get_feature_names_out :=
       Ok ["num__tenure"; "num__MonthlyCharges";
           "cat__Partner_No"; "cat__Partner_Yes"] |}.

(** A fitted pipeline that gives every row the churn probability [p]. *)
Definition pipeline (c : Classifier) (p : Q) : Pipeline :=
  {| pre := preprocessor;
     clf := c;
     pl_predict := λ d, Ok (replicate (index_len d) (if Qle_bool (1 # 2) p then 1 else 0)%Z);
     pl_predict_proba := λ d, Ok (replicate (index_len d) [1 - p; p]%Q) |}.

Definition logistic : Pipeline :=
  pipeline {| coef_ := Some [[-3 # 2; 1 # 4; 12346 # 100000; 2]%Q];
              feature_importances_ := None |} (4 # 5).
Definition forest : Pipeline :=
  pipeline {| coef_ := None;
              feature_importances_ := Some [1 # 2; 1 # 4; 1 # 8; 1 # 8]%Q |}
           (9 # 10).
Definition boosted : Pipeline :=
  pipeline {| coef_ := None;
              feature_importances_ := Some [1 # 4; 1 # 4; 1 # 4; 1 # 4]%Q |}
           (9 # 10).

Definition X_test : DataFrame :=
  {| index_len := 2;
     columns := [ ("tenure", [CNum 1; CNum 30]);
                  ("MonthlyCharges", [CNum 20; CNum 90]);
                  ("Partner", [CStr "Yes"; CStr "No"]) ] |}.
Definition y_test : list Z := [1; 0]%Z.

Definition GridSearchCV_fit (base : Trainer.BaseClf) (grid : Trainer.Grid)
    : result Pipeline :=
  Ok match base with
     | Trainer.LogisticRegression => logistic
     | Trainer.RandomForestClassifier => forest
     | Trainer.XGBClassifier => boosted
     end.
Definition Pipeline_fit (base : Trainer.BaseClf) : result Pipeline :=
  Raise "every family has a grid".
(** The score of the stand-in pipelines: their constant probability. *)
Definition roc_auc_score (y : list Z) (probs : list Q) : result Q := first probs.
Definition accuracy_score (y preds : list Z) : result Q := Ok (1 # 2)%Q.

Definition evaluate := Trainer.evaluate X_test y_test GridSearchCV_fit
                         Pipeline_fit roc_auc_score accuracy_score.
Definition iteration := Trainer.iteration X_test y_test GridSearchCV_fit
                          Pipeline_fit roc_auc_score accuracy_score.
Definition main := Trainer.main X_test y_test GridSearchCV_fit
                     Pipeline_fit roc_auc_score accuracy_score.

Definition report : json :=
  match main with
  | Trainer.Saved _ metrics_json => metrics_json
  | _ => JNull
  end.

(** The dataset as [read_csv] returns it, and the server started on it. *)
Definition dataset : DataFrame :=
  {| index_len := 4;
     columns := [ ("Contract ", [CStr "Monthly"; CStr "Yearly"; CStr "Monthly"; CNaN]);
                  ("tenure", [CNum 1; CNum 13; CNum 30; CNaN]);
                  ("MonthlyCharges", [CNum 50; CNum (101 # 2); CNum 100; CNum 101]);
                  (" Churn", [CStr "Yes"; CStr "No"; CStr "No"; CStr "Yes"]) ] |}.

Definition files : App.Disk :=
  {| App.model_pkl := Some forest;
     App.dataset_csv := Some (Ok dataset);
     App.metrics_json := Some (Ok report) |}.

Definition server : App.Server :=
  {| App.model := forest;
     App.df :=
       {| index_len := 4;
          columns := [ ("Contract", [CStr "Monthly"; CStr "Yearly"; CStr "Monthly"; CNaN]);
                       ("tenure", [CNum 1; CNum 13; CNum 30; CNaN]);
                       ("MonthlyCharges", [CNum 50; CNum (101 # 2); CNum 100; CNum 101]);
                       ("Churn", [CNum 1; CNum 0; CNum 0; CNum 1]) ] |};
     App.disk := files |}.


(** The UTF-8 bytes of the characters [str.isspace()] holds for, and of
    four it does not hold for: U+00A1, U+1681, U+200B and U+3001. *)
Definition of_bytes (bytes : list nat) : string :=
  fold_right (λ b s, String (Ascii.ascii_of_nat b) s) EmptyString bytes.
Definition white_space : list string :=
  map of_bytes
    [ [9]; [10]; [11]; [12]; [13]; [28]; [29]; [30]; [31]; [32];
       [194; 133]; [194; 160]; [225; 154; 128]; [226; 128; 128];
       [226; 128; 129]; [226; 128; 130]; [226; 128; 131]; [226; 128; 132];
       [226; 128; 133]; [226; 128; 134]; [226; 128; 135]; [226; 128; 136];
       [226; 128; 137]; [226; 128; 138]; [226; 128; 168]; [226; 128; 169];
       [226; 128; 175]; [226; 129; 159]; [227; 128; 128] ].
Definition no_white_space : list string :=
  map of_bytes [ [194; 161]; [225; 154; 129]; [226; 128; 139]; [227; 128; 129] ].


Definition dashboard_body : App.DashboardBody :=
  match (App.dashboard server).1 with
  | App.Ok200 body => body
  | _ => {| App.contract := ∅; App.tenure := ∅; App.monthly := ∅;
            App.dashboard_metrics := JNull;
            App.dashboard_active_model := JNull |}
  end.

(** Requests. *)
Definition cell_of (j : json) : cell :=
  match j with
  | JNum q => CNum q
  | JStr s => CStr s
  | _ => CNaN
  end.
Definition pd_DataFrame (records : list json) : result DataFrame :=
  match records with
  | [JObj fields] =>
      Ok {| index_len := 1;
            columns := map (λ f, (f.1, [cell_of f.2])) fields |}
  | _ => Raise "ValueError: DataFrame constructor not properly called!"
  end.

Definition customer : json :=
  JObj [("tenure", JNum 5); ("MonthlyCharges", JNum 70); ("Partner", JStr "No")].

Definition no_rows : DataFrame :=
  {| index_len := 0;
     columns := [("tenure", []); ("MonthlyCharges", [])] |}.
Definition customers : DataFrame :=
  {| index_len := 2;
     columns := [ (" tenure", [CNum 5; CNum 40]);
                  ("MonthlyCharges ", [CNum 70; CNum 30]) ] |}.

Definition pd_read_csv (file : App.Upload) : result DataFrame :=
  if String.eqb (App.stream file) "" then
    Raise "EmptyDataError: No columns to parse from file"
  else if String.eqb (App.stream file) "tenure,MonthlyCharges" then Ok no_rows
  else Ok customers.

Definition header_only : App.Upload :=
  {| App.filename := "empty.csv"; App.stream := "tenure,MonthlyCharges" |}.
Definition two_rows : App.Upload :=
  {| App.filename := "customers.csv";
     App.stream := "tenure,MonthlyCharges 5,70 40,30" |}.

Definition shap_Explainer (c : Classifier) (background : Matrix)
    : result (Matrix → result Explanation) :=
  Ok (λ X, Ok {| values := map (map (Qmult (1 # 2))) X;
                 base_values := map (λ _, (1 # 4)%Q) X;
                 abs_mean_0 := [1 # 2; 0; 1 # 2; 0]%Q |}).
Definition shap_fails (c : Classifier) (background : Matrix)
    : result (Matrix → result Explanation) :=
  Raise "ExplainerError: model type not supported".

(** A run in which the last family cannot be fitted. *)
Definition GridSearchCV_breaks (base : Trainer.BaseClf) (grid : Trainer.Grid)
    : result Pipeline :=
  match base with
  | Trainer.XGBClassifier => Raise "XGBoostError: training failed"
  | _ => GridSearchCV_fit base grid
  end.

(** The dataset as the trainer reads it, one "TotalCharges" field blank. *)
Definition telco : DataFrame :=
  {| index_len := 3;
     columns := [ ("customerID", [CStr "7590-VHVEG"; CStr "4472-LVYGI"; CStr "5575-GNVDE"]);
                  ("tenure", [CNum 1; CNum 0; CNum 34]);
                  ("Contract", [CStr "Monthly"; CStr "Yearly"; CStr "Yearly"]);
                  ("TotalCharges", [CStr "29.85"; CStr " "; CStr "1889.5"]);
                  ("Churn", [CStr "No"; CStr "No"; CStr "Yes"]) ] |}.

Definition parse_number (s : string) : option Q :=
  if String.eqb s "29.85" then Some (2985 # 100)%Q
  else if String.eqb s "1889.5" then Some (18895 # 10)%Q
  else None.

Definition cleaned : Trainer.Data :=
  {| Trainer.X :=
       {| index_len := 2;
          columns := [ ("tenure", [CNum 1; CNum 34]);
                       ("Contract", [CStr "Monthly"; CStr "Yearly"]);
                       ("TotalCharges", [CNum (2985 # 100); CNum (18895 # 10)]) ] |};
     Trainer.y := [CNum 0; CNum 1] |}.

(** A server whose dataset has a non-numeric monthly charge. *)
Definition server_bad_charge : App.Server :=
  {| App.model := forest;
     App.df :=
       {| index_len := 2;
          columns := [ ("Contract", [CStr "Monthly"; CStr "Yearly"]);
                       ("tenure", [CNum 1; CNum 13]);
                       ("MonthlyCharges", [CNum 50; CStr "n/a"]);
                       ("Churn", [CNum 1; CNum 0]) ] |};
     App.disk := files |}.


End Demo.

(** * Properties *)

Local Open Scope nat_scope.
Local Open Scope list_scope.

(** ** Python dicts *)

Section Dict.
Context {V : Type}.
Implicit Types (d pairs acc : list (string * V)) (k : string) (v : V).

Lemma dict_get_set_eq k v d : dict_get k (dict_set k v d) = Some v.
Proof.
  induction d as [|[k' v'] d IH]; simpl.
  - by rewrite decide_True.
  - destruct (decide (k' = k)) as [->|Hne]; simpl.
    + by rewrite decide_True.
    + by rewrite decide_False.
Qed.

Lemma dict_get_set_ne k k' v d :
  k ≠ k' → dict_get k' (dict_set k v d) = dict_get k' d.
Proof.
  intros Hne. induction d as [|[k0 v0] d IH]; simpl.
  - by rewrite decide_False.
  - destruct (decide (k0 = k)) as [->|Hk]; simpl.
    + by rewrite !decide_False.
    + by rewrite IH.
Qed.

Lemma length_dict_set k v d : length (dict_set k v d) ≤ S (length d).
Proof.
  induction d as [|[k' v'] d IH]; simpl; [lia|].
  destruct (decide (k' = k)); simpl; lia.
Qed.

Lemma elem_of_dict_set k v d (p : string * V) :
  p ∈ dict_set k v d → p = (k, v) ∨ p ∈ d.
Proof.
  induction d as [|[k' v'] d IH]; simpl.
  - intros ->%list_elem_of_singleton. by left.
  - destruct (decide (k' = k)) as [->|Hk].
    + intros [->| ?]%elem_of_cons; [by left | right; by right].
    + intros [->| ?]%elem_of_cons; [right; by left |].
      destruct IH as [->|?]; [done | by left | right; by right].
Qed.

Lemma dict_get_elem_of k v d : dict_get k d = Some v → (k, v) ∈ d.
Proof.
  induction d as [|[k' v'] d IH]; simpl; [done|].
  destruct (decide (k' = k)) as [->|Hk].
  - intros [= ->]. by left.
  - intros ?. right. by apply IH.
Qed.

Lemma dict_get_is_Some k d : is_Some (dict_get k d) ↔ k ∈ d.*1.
Proof.
  induction d as [|[k' v'] d IH]; simpl.
  - split; [by intros [? ?] | by intros ?%elem_of_nil].
  - destruct (decide (k' = k)) as [->|Hk].
    + split; [intros _; by left | by eauto].
    + rewrite IH. split; [by right|].
      intros [?|?]%elem_of_cons; [congruence | done].
Qed.

Lemma dict_set_keys k v d k' :
  k' ∈ (dict_set k v d).*1 ↔ k' = k ∨ k' ∈ d.*1.
Proof.
  rewrite <- !dict_get_is_Some.
  destruct (decide (k = k')) as [->|Hne].
  - rewrite dict_get_set_eq. split; [by left | by eauto].
  - rewrite dict_get_set_ne by done. split; [by right|].
    intros [?|?]; [congruence | done].
Qed.

Lemma length_dict_fold pairs acc :
  length (dict_fold pairs acc) ≤ length pairs + length acc.
Proof.
  revert acc. induction pairs as [|p pairs IH]; intros acc; simpl; [lia|].
  etrans; [apply IH|]. pose proof (length_dict_set p.1 p.2 acc). lia.
Qed.

Lemma elem_of_dict_fold pairs acc (p : string * V) :
  p ∈ dict_fold pairs acc → p ∈ pairs ∨ p ∈ acc.
Proof.
  revert acc. induction pairs as [|q pairs IH]; intros acc; simpl; [by right|].
  intros [?|[->|?]%elem_of_dict_set]%IH.
  - left. by right.
  - left. destruct q. by left.
  - by right.
Qed.

Lemma dict_fold_keys pairs acc k :
  k ∈ (dict_fold pairs acc).*1 ↔ k ∈ pairs.*1 ∨ k ∈ acc.*1.
Proof.
  revert acc. induction pairs as [|q pairs IH]; intros acc; simpl.
  - split; [by right | by intros [?%elem_of_nil|?]].
  - rewrite IH, dict_set_keys, elem_of_cons. tauto.
Qed.

Lemma length_dict_of (pairs : list (string * V)) :
  length (dict_of pairs) ≤ length pairs.
Proof. pose proof (length_dict_fold pairs []). simpl in *. unfold dict_of, dict_fold in *. lia. Qed.

Lemma elem_of_dict_of (pairs : list (string * V)) p :
  p ∈ dict_of pairs → p ∈ pairs.
Proof. intros [?|?%elem_of_nil]%elem_of_dict_fold; done. Qed.

Lemma dict_of_keys (pairs : list (string * V)) k :
  k ∈ (dict_of pairs).*1 ↔ k ∈ pairs.*1.
Proof.
  unfold dict_of. rewrite (dict_fold_keys pairs [] k). simpl.
  split; [by intros [?|?%elem_of_nil] | by left].
Qed.
End Dict.

(** ** Rounding *)

Lemma round_half_even_close (x : Q) :
  (Qabs (x - inject_Z (round_half_even x)) <= 1 # 2)%Q.
Proof.
  unfold round_half_even.
  pose proof (Qfloor_le x) as Hlo. pose proof (Qlt_floor x) as Hhi.
  rewrite inject_Z_plus in Hhi. change (inject_Z 1) with 1%Q in Hhi.
  apply Qabs_Qle_condition.
  destruct (Qcompare_spec (x - inject_Z (Qfloor x)) (1 # 2)) as [Heq|Hlt|Hgt].
  - destruct (Z.even (Qfloor x));
      [|rewrite inject_Z_plus; change (inject_Z 1) with 1%Q];
      set (f := inject_Z (Qfloor x)) in *; split; lra.
  - set (f := inject_Z (Qfloor x)) in *; split; lra.
  - rewrite inject_Z_plus; change (inject_Z 1) with 1%Q.
    set (f := inject_Z (Qfloor x)) in *; split; lra.
Qed.

(** [round(w, 4)] is a multiple of 1/10000 within half a unit of [w]. *)
Lemma py_round_4_spec (w : Q) :
  ∃ z : Z, py_round w 4 = (z # 10000)%Q ∧
           (Qabs (w - py_round w 4) <= 1 # 20000)%Q.
Proof.
  exists (round_half_even (w * inject_Z (10 ^ Z.of_nat 4))).
  split; [reflexivity|].
  unfold py_round. cbv zeta.
  pose proof (round_half_even_close (w * inject_Z (10 ^ Z.of_nat 4))) as H.
  set (z := round_half_even _) in *.
  change (Z.to_pos (10 ^ Z.of_nat 4)) with 10000%positive.
  change (inject_Z (10 ^ Z.of_nat 4)) with (10000 # 1)%Q in H.
  apply Qabs_Qle_condition in H. apply Qabs_Qle_condition.
  rewrite (Qmake_Qdiv z 10000).
  change (inject_Z (Z.pos 10000)) with (10000 # 1)%Q.
  set (zq := inject_Z z) in *.
  assert (Hdiv : (zq / (10000 # 1) == zq * (1 # 10000))%Q)
    by (unfold Qdiv; reflexivity).
  rewrite Hdiv. split; lra.
Qed.

(** ** [sorted(..., key=lambda x: -abs(x[1]))] *)

Lemma insert_sorted_Permutation x l : Trainer.insert_sorted x l ≡ₚ x :: l.
Proof.
  induction l as [|y l IH]; simpl; [done|].
  destruct (Qle_bool _ _); [done|].
  rewrite IH. apply Permutation_swap.
Qed.

Lemma py_sorted_Permutation l : Trainer.py_sorted l ≡ₚ l.
Proof.
  induction l as [|x l IH]; simpl; [done|].
  by rewrite insert_sorted_Permutation, IH.
Qed.

Lemma insert_sorted_StronglySorted x l :
  StronglySorted key_le l → StronglySorted key_le (Trainer.insert_sorted x l).
Proof.
  induction 1 as [|y l Hl IH Hy]; simpl.
  - repeat constructor.
  - destruct (Qle_bool (Trainer.sort_key x) (Trainer.sort_key y)) eqn:Hxy.
    + apply Qle_bool_iff in Hxy.
      constructor; [by constructor|].
      constructor; [done|].
      eapply Forall_impl; [exact Hy|].
      intros z Hz. unfold key_le in *. by apply Qle_trans with (Trainer.sort_key y).
    + constructor; [done|].
      rewrite insert_sorted_Permutation. constructor; [|done].
      unfold key_le. apply Qlt_le_weak, Qnot_le_lt.
      intros Hle. apply Qle_bool_iff in Hle. congruence.
Qed.

Lemma py_sorted_StronglySorted l : StronglySorted key_le (Trainer.py_sorted l).
Proof.
  induction l as [|x l IH]; simpl; [constructor|].
  by apply insert_sorted_StronglySorted.
Qed.

(** Whatever the cut keeps has at least the magnitude of whatever it drops. *)
Lemma top20_largest names imp x y :
  x ∈ Trainer.top20 names imp →
  y ∈ drop 20 (Trainer.py_sorted (zip names imp)) →
  (Qabs y.2 <= Qabs x.2)%Q.
Proof.
  intros Hx Hy.
  pose proof (py_sorted_StronglySorted (zip names imp)) as Hs.
  rewrite <- (take_drop 20 (Trainer.py_sorted (zip names imp))) in Hs.
  pose proof (StronglySorted_app_1_elem_of _ _ _ x y Hs Hx Hy) as Hle.
  unfold key_le, Trainer.sort_key in Hle. lra.
Qed.

Lemma top20_from_zip names imp x :
  x ∈ Trainer.top20 names imp → x ∈ zip names imp.
Proof.
  intros Hx. rewrite <- (py_sorted_Permutation (zip names imp)).
  unfold Trainer.top20 in Hx. by apply subseteq_take in Hx.
Qed.

(** ** Feature names *)

Lemma feature_names_loop_app ts1 ts2 acc :
  Trainer.feature_names_loop (ts1 ++ ts2) acc =
    Trainer.feature_names_loop ts1 acc ≫= Trainer.feature_names_loop ts2.
Proof.
  revert acc. induction ts1 as [|[[name trans] cols] ts1 IH]; intros acc;
    [done|].
  cbn [app Trainer.feature_names_loop].
  destruct (String.eqb name "num"); [apply IH|].
  destruct (String.eqb name "cat"); [|apply IH].
  destruct trans as [names_out|]; [|apply IH].
  destruct (names_out cols) as [out|e]; simpl; [apply IH|done].
Qed.

(** Transformers under any other name ("remainder", say) add nothing. *)
Lemma feature_names_loop_others ts acc :
  Forall (λ t, t.1.1 ≠ "num" ∧ t.1.1 ≠ "cat") ts →
  Trainer.feature_names_loop ts acc = Ok acc.
Proof.
  intros Hall. revert acc.
  induction Hall as [|[[name trans] cols] ts [Hnum Hcat] _ IH]; intros acc;
    [done|].
  cbn [Trainer.feature_names_loop]. simpl in Hnum, Hcat.
  apply String.eqb_neq in Hnum, Hcat. by rewrite Hnum, Hcat.
Qed.

(** ** The trainer's selection loop *)

Section TrainerRun.
Variable X_test : DataFrame.
Variable y_test : list Z.
Variable GridSearchCV_fit : Trainer.BaseClf → Trainer.Grid → result Pipeline.
Variable Pipeline_fit : Trainer.BaseClf → result Pipeline.
Variable roc_auc_score : list Z → list Q → result Q.
Variable accuracy_score : list Z → list Z → result Q.

Local Abbreviation evaluate :=
  (Trainer.evaluate X_test y_test GridSearchCV_fit Pipeline_fit
     roc_auc_score accuracy_score).
Local Abbreviation iteration :=
  (Trainer.iteration X_test y_test GridSearchCV_fit Pipeline_fit
     roc_auc_score accuracy_score).
Local Abbreviation train_loop :=
  (Trainer.train_loop X_test y_test GridSearchCV_fit Pipeline_fit
     roc_auc_score accuracy_score).
Local Abbreviation main :=
  (Trainer.main X_test y_test GridSearchCV_fit Pipeline_fit
     roc_auc_score accuracy_score).

(** What one iteration does to the state, once the family is scored. *)
Lemma iteration_scored st fam model auc acc :
  evaluate fam = Ok (model, auc, acc) →
  ∃ st',
    iteration st fam = Ok st' ∧
    Trainer.metrics st' =
      dict_set fam.1
        (Trainer.metrics_entry auc acc (Trainer.feature_importance model))
        (Trainer.metrics st) ∧
    (((Trainer.best_auc st < auc)%Q ∧
      Trainer.best_model st' = Some model ∧
      Trainer.best_model_name st' = Some fam.1 ∧
      Trainer.best_auc st' = auc)
     ∨
     ((auc <= Trainer.best_auc st)%Q ∧
      Trainer.best_model st' = Trainer.best_model st ∧
      Trainer.best_model_name st' = Trainer.best_model_name st ∧
      Trainer.best_auc st' = Trainer.best_auc st)).
Proof.
  intros Hev. unfold Trainer.iteration. rewrite Hev. simpl.
  destruct (Qlt_le_dec (Trainer.best_auc st) auc) as [Hlt|Hle];
    eexists; (split; [reflexivity|]); simpl; (split; [reflexivity|]).
  - left. done.
  - right. done.
Qed.

(** The loop keeps the first family that reaches the largest AUC above the
    starting [best_auc], or leaves the best untouched when none exceeds it. *)
Lemma train_loop_selects fams st :
  (∀ fam, fam ∈ fams → ∃ m a c, evaluate fam = Ok (m, a, c)) →
  ∃ st',
    train_loop fams st = Ok st' ∧
    ((Trainer.best_model st' = Trainer.best_model st ∧
      Trainer.best_model_name st' = Trainer.best_model_name st ∧
      Trainer.best_auc st' = Trainer.best_auc st ∧
      ∀ f m a c, f ∈ fams → evaluate f = Ok (m, a, c) →
                 (a <= Trainer.best_auc st)%Q)
     ∨
     (∃ before fam after m a c,
        fams = before ++ fam :: after ∧
        evaluate fam = Ok (m, a, c) ∧
        Trainer.best_model st' = Some m ∧
        Trainer.best_model_name st' = Some fam.1 ∧
        Trainer.best_auc st' = a ∧
        (Trainer.best_auc st < a)%Q ∧
        (∀ f m' a' c', f ∈ before → evaluate f = Ok (m', a', c') → (a' < a)%Q) ∧
        (∀ f m' a' c', f ∈ after → evaluate f = Ok (m', a', c') → (a' <= a)%Q))).
Proof.
  revert st. induction fams as [|fam0 fams IH]; intros st Hsc.
  - exists st. split; [done|]. left. repeat split.
    intros f m a c Hf. by apply elem_of_nil in Hf.
  - destruct (Hsc fam0) as (m0 & a0 & c0 & Hev0); [by left|].
    destruct (iteration_scored st fam0 m0 a0 c0 Hev0)
      as (st1 & Hit & _ & Hbest).
    destruct (IH st1) as (st' & Hloop & Hsel).
    { intros f Hf. apply Hsc. by right. }
    exists st'. split.
    { simpl. rewrite Hit. exact Hloop. }
    destruct Hbest as [(Hlt & Hm1 & Hn1 & Ha1)|(Hle & Hm1 & Hn1 & Ha1)];
      destruct Hsel as [(Hm & Hn & Ha & Hall)
                       |(before & fam & after & m & a & c & -> & Hev & Hm & Hn
                         & Ha & Hgt & Hbefore & Hafter)].
    + right. exists [], fam0, fams, m0, a0, c0. simpl.
      repeat split; try congruence; try done.
      * intros f m' a' c' Hf. by apply elem_of_nil in Hf.
      * intros f m' a' c' Hf Hevf. specialize (Hall f m' a' c' Hf Hevf).
        by rewrite Ha1 in Hall.
    + right. exists (fam0 :: before), fam, after, m, a, c. simpl.
      rewrite Ha1 in Hgt.
      repeat split; try done.
      * by apply Qlt_trans with a0.
      * intros f m' a' c' [->|Hf]%elem_of_cons Hevf.
        -- rewrite Hev0 in Hevf. by injection Hevf as _ <- _.
        -- by apply (Hbefore f m' a' c').
    + left. rewrite Hm, Hn, Ha. repeat split; try done.
      intros f m' a' c' [->|Hf]%elem_of_cons Hevf.
      * rewrite Hev0 in Hevf. by injection Hevf as _ <- _.
      * rewrite <- Ha1. by apply (Hall f m' a' c').
    + right. exists (fam0 :: before), fam, after, m, a, c. simpl.
      rewrite Ha1 in Hgt.
      repeat split; try done.
      intros f m' a' c' [->|Hf]%elem_of_cons Hevf.
      * rewrite Hev0 in Hevf. injection Hevf as _ <- _.
        by apply Qle_lt_trans with (Trainer.best_auc st).
      * by apply (Hbefore f m' a' c').
Qed.

(** C2. When every family is fitted and scored with an AUC above the
    starting value -1 (any AUC in [0,1] is), the trainer saves the pipeline
    of the family with the highest held-out AUC and names it in
    "current_model"; among families with that AUC the first in iteration
    order wins: every earlier family has a strictly smaller AUC, every later
    one an AUC that is not larger. *)
Theorem best_model_highest_auc_first_on_tie :
  (∀ fam, fam ∈ Trainer.models →
     ∃ m a c, evaluate fam = Ok (m, a, c) ∧ (-1 < a)%Q) →
  ∃ before fam after m a c fields,
    Trainer.models = before ++ fam :: after ∧
    evaluate fam = Ok (m, a, c) ∧
    main = Trainer.Saved m (JObj fields) ∧
    dict_get "current_model" fields = Some (JStr fam.1) ∧
    (∀ f m' a' c', f ∈ before → evaluate f = Ok (m', a', c') → (a' < a)%Q) ∧
    (∀ f m' a' c', f ∈ after → evaluate f = Ok (m', a', c') → (a' <= a)%Q).
Proof.
  intros Hall.
  destruct (train_loop_selects Trainer.models Trainer.initial)
    as (st' & Hloop & Hsel).
  { intros fam Hfam. destruct (Hall fam Hfam) as (m & a & c & Hev & _).
    by exists m, a, c. }
  destruct Hsel as [(_ & _ & _ & Hle)
                   |(before & fam & after & m & a & c & Hsplit & Hev & Hm & Hn
                     & _ & _ & Hbefore & Hafter)].
  - destruct (Hall ("Logistic Regression", Trainer.LogisticRegression))
      as (m & a & c & Hev & Hgt); [by left|].
    specialize (Hle _ m a c ltac:(by left) Hev). simpl in Hle.
    exfalso. apply (Qlt_not_le _ _ Hgt Hle).
  - exists before, fam, after, m, a, c.
    exists (dict_set "current_model" (JStr fam.1) (Trainer.metrics st')).
    repeat split; try done.
    + unfold Trainer.main. rewrite Hloop. unfold Trainer.save.
      by rewrite Hm, Hn.
    + apply dict_get_set_eq.
Qed.
(** *** The report names a family it has an entry for *)

Lemma iteration_best_recorded N st fam st' :
  fam.1 ∈ N → best_recorded N st → iteration st fam = Ok st' →
  best_recorded N st'.
Proof.
  intros HN Hinv Hit.
  destruct (evaluate fam) as [[[model auc] acc]|e] eqn:Hev.
  2: { unfold Trainer.iteration in Hit. by rewrite Hev in Hit. }
  destruct (iteration_scored st fam model auc acc Hev)
    as (st1 & Hit1 & Hmet & Hbest).
  rewrite Hit in Hit1. injection Hit1 as <-.
  intros m Hm. unfold has_entry. rewrite Hmet.
  destruct Hbest as [(_ & _ & Hn & _)|(_ & Hm' & Hn & _)].
  - exists fam.1. split; [done|]. split; [done|].
    do 3 eexists. apply dict_get_set_eq.
  - rewrite Hm' in Hm. destruct (Hinv m Hm) as (n & Hname & HnN & a & c & fi & Hget).
    exists n. rewrite Hn. split; [done|]. split; [done|].
    destruct (decide (fam.1 = n)) as [<-|Hne].
    + do 3 eexists. apply dict_get_set_eq.
    + exists a, c, fi. by rewrite dict_get_set_ne.
Qed.

Lemma train_loop_best_recorded N fams st st' :
  (∀ fam, fam ∈ fams → fam.1 ∈ N) → best_recorded N st →
  train_loop fams st = Ok st' → best_recorded N st'.
Proof.
  revert st. induction fams as [|fam fams IH]; intros st HN Hinv; simpl.
  - by intros [= <-].
  - destruct (iteration st fam) as [st1|e] eqn:Hit; simpl; [|done].
    apply IH.
    + intros f Hf. apply HN. by right.
    + eapply iteration_best_recorded; [|done..]. apply HN. by left.
Qed.

(** C3. Whenever the trainer writes the metrics report, its
    "current_model" field is the name of one of the model families, and that
    name is also a top-level key of the same report whose entry is an object
    carrying numeric (non-null) "auc" and "accuracy" values. *)
Theorem report_current_model_has_entry model_pkl report :
  main = Trainer.Saved model_pkl report →
  ∃ fields name entry a c,
    report = JObj fields ∧
    dict_get "current_model" fields = Some (JStr name) ∧
    name ∈ Trainer.models.*1 ∧
    dict_get name fields = Some (JObj entry) ∧
    dict_get "auc" entry = Some (JNum a) ∧
    dict_get "accuracy" entry = Some (JNum c).
Proof.
  unfold Trainer.main.
  destruct (train_loop Trainer.models Trainer.initial) as [st|e] eqn:Hloop;
    [|done].
  assert (Hinv : best_recorded Trainer.models.*1 st).
  { eapply train_loop_best_recorded; [| |exact Hloop].
    - intros fam Hfam. by apply list_elem_of_fmap_2.
    - intros m Hm. discriminate Hm. }
  unfold Trainer.save.
  destruct (Trainer.best_model st) as [m|] eqn:Hm; [|done].
  destruct (Hinv m Hm) as (n & Hn & HnN & a & c & fi & Hget).
  rewrite Hn. intros [= <- <-].
  exists (dict_set "current_model" (JStr n) (Trainer.metrics st)), n,
    [ ("auc", JNum (py_round a 3)); ("accuracy", JNum (py_round c 3));
      ("feature_importance", JObj (map (λ x, (x.1, JNum x.2)) fi)) ],
    (py_round a 3), (py_round c 3).
  split; [reflexivity|].
  split; [apply dict_get_set_eq|]. split; [done|].
  split; [|split; reflexivity].
  rewrite dict_get_set_ne; [exact Hget|].
  intros <-. simpl in HnN.
  repeat (apply elem_of_cons in HnN as [HnN|HnN]; [discriminate HnN|]).
  by apply elem_of_nil in HnN.
Qed.

(** *** Feature importance of one family *)

(** C7. For a family the trainer has fitted and scored, the iteration
    succeeds and records, under the family's name, an entry of the metrics
    report whose field "feature_importance" is the family's
    feature-importance mapping (next to the rounded "auc" and "accuracy").
    The mapping has at most 20 entries; it is empty when the extraction
    raises; otherwise its keys are the names of the 20 pairs ranked first by
    descending absolute importance (no dropped pair has a larger magnitude
    than a kept one), every key is a post-encoding feature name, and every
    value is a kept importance rounded to 4 decimals. For the column
    transformer the script builds the post-encoding names are the numeric
    columns followed by the names the one-hot encoder gives to the categorical
    columns, and the keys are those of the first 20 of them by magnitude. The
    importance vector is the absolute first coefficient row when the
    classifier has [coef_], else its [feature_importances_]. *)
Theorem feature_importance_top20 st fam model auc acc :
  evaluate fam = Ok (model, auc, acc) →
  let fi := Trainer.feature_importance model in
  (∃ st' entry,
     iteration st fam = Ok st' ∧
     dict_get fam.1 (Trainer.metrics st') = Some (JObj entry) ∧
     dict_get "auc" entry = Some (JNum (py_round auc 3)) ∧
     dict_get "accuracy" entry = Some (JNum (py_round acc 3)) ∧
     dict_get "feature_importance" entry =
       Some (JObj (map (λ x, (x.1, JNum x.2)) fi))) ∧
  length fi ≤ 20 ∧
  (∀ e, Trainer.extract_importance model = Raise e → fi = []) ∧
  (∀ names imp,
     Trainer.get_feature_names (pre model) = Ok names →
     Trainer.importance_of (clf model) = Ok (Some imp) →
     let kept := Trainer.top20 names imp in
     let dropped := drop 20 (Trainer.py_sorted (zip names imp)) in
     kept ++ dropped ≡ₚ zip names imp ∧
     (∀ x y, x ∈ kept → y ∈ dropped → (Qabs y.2 <= Qabs x.2)%Q) ∧
     (∀ k, k ∈ fi.*1 ↔ k ∈ kept.*1) ∧
     (∀ k v, (k, v) ∈ fi →
        k ∈ names ∧
        ∃ w z, (k, w) ∈ kept ∧ v = py_round w 4 ∧ v = (z # 10000)%Q ∧
               (Qabs (w - v) <= 1 # 20000)%Q)) ∧
  (∀ scaler numeric names_out categorical rest encoded,
     transformers_ (pre model) =
       ("num", scaler, numeric)
         :: ("cat", OneHotEncoder names_out, categorical) :: rest →
     Forall (λ t, t.1.1 ≠ "num" ∧ t.1.1 ≠ "cat") rest →
     names_out categorical = Ok encoded →
     Trainer.get_feature_names (pre model) = Ok (numeric ++ encoded) ∧
     ∀ imp, Trainer.importance_of (clf model) = Ok (Some imp) →
       fi = dict_of (map (λ x, (x.1, py_round x.2 4))
                       (Trainer.top20 (numeric ++ encoded) imp)) ∧
       ∀ k, k ∈ fi.*1 ↔ k ∈ (Trainer.top20 (numeric ++ encoded) imp).*1) ∧
  (∀ row rows, coef_ (clf model) = Some (row :: rows) →
     Trainer.importance_of (clf model) = Ok (Some (map Qabs row))) ∧
  (∀ imp, coef_ (clf model) = None →
     feature_importances_ (clf model) = Some imp →
     Trainer.importance_of (clf model) = Ok (Some imp)).
Proof.
  intros Hev fi.
  assert (Hfi : ∀ names imp,
            Trainer.get_feature_names (pre model) = Ok names →
            Trainer.importance_of (clf model) = Ok (Some imp) →
            fi = dict_of (map (λ x, (x.1, py_round x.2 4))
                            (Trainer.top20 names imp))).
  { intros names imp Hnames Himp. subst fi.
    unfold Trainer.feature_importance, Trainer.extract_importance.
    rewrite Hnames. simpl. by rewrite Himp. }
  split; [|split; [|split; [|split; [|split; [|split]]]]].
  - destruct (iteration_scored st fam model auc acc Hev)
      as (st' & Hit & Hmet & _).
    exists st',
      [ ("auc", JNum (py_round auc 3)); ("accuracy", JNum (py_round acc 3));
        ("feature_importance", JObj (map (λ x, (x.1, JNum x.2)) fi)) ].
    split; [done|]. split; [|by repeat split].
    rewrite Hmet. apply dict_get_set_eq.
  - subst fi. unfold Trainer.feature_importance, Trainer.extract_importance.
    destruct (Trainer.get_feature_names (pre model)) as [names|]; simpl; [|lia].
    destruct (Trainer.importance_of (clf model)) as [[imp|]|]; simpl; try lia.
    etrans; [apply length_dict_of|].
    rewrite length_map. unfold Trainer.top20. rewrite length_take. lia.
  - intros e He. subst fi. unfold Trainer.feature_importance. by rewrite He.
  - intros names imp Hnames Himp kept dropped.
    specialize (Hfi names imp Hnames Himp).
    split; [|split; [|split]].
    + subst kept dropped. unfold Trainer.top20.
      rewrite take_drop. apply py_sorted_Permutation.
    + intros x y Hx Hy. by apply (top20_largest names imp).
    + intros k. rewrite Hfi, dict_of_keys.
      by rewrite <- list_fmap_compose.
    + intros k v Hkv. rewrite Hfi in Hkv.
      apply elem_of_dict_of, list_elem_of_fmap in Hkv as ([k' w] & [= -> ->] & Hx).
      simpl. split.
      * apply top20_from_zip in Hx. by apply elem_of_zip_l in Hx.
      * destruct (py_round_4_spec w) as (z & Hz & Hclose).
        exists w, z. done.
  - intros scaler numeric names_out categorical rest encoded Hts Hrest Henc.
    assert (Hnames : Trainer.get_feature_names (pre model)
                     = Ok (numeric ++ encoded)).
    { unfold Trainer.get_feature_names. rewrite Hts.
      cbn [Trainer.feature_names_loop String.eqb Ascii.eqb Bool.eqb].
      simpl. rewrite Henc. simpl. by apply feature_names_loop_others. }
    split; [done|]. intros imp Himp.
    specialize (Hfi _ imp Hnames Himp). split; [done|].
    intros k. rewrite Hfi, dict_of_keys.
    by rewrite <- list_fmap_compose.
  - intros row rows Hcoef. unfold Trainer.importance_of. by rewrite Hcoef.
  - intros imp Hcoef Himp. unfold Trainer.importance_of. by rewrite Hcoef, Himp.
Qed.
End TrainerRun.

(** ** Columns of a data frame *)

(** Assigning column [c] is invisible to any selection of columns that
    leaves out the label [c]. *)
Lemma filter_set_col (P : string * list cell → bool) c v d :
  (∀ p, labelled c p = true → P p = false) →
  List.filter P (columns (set_col c v d)) = List.filter P (columns d).
Proof.
  intros HP. unfold set_col.
  assert (HPc : P (c, v) = false).
  { apply HP. unfold labelled. simpl. by apply bool_decide_eq_true. }
  destruct (existsb (labelled c) (columns d)); simpl.
  - induction (columns d) as [|p l IH]; simpl; [done|].
    destruct (labelled c p) eqn:Hp.
    + by rewrite HPc, (HP p Hp).
    + by rewrite IH.
  - rewrite List.filter_app. simpl. by rewrite HPc, app_nil_r.
Qed.

Lemma labelled_ne c c' p : c ≠ c' → labelled c p = true → labelled c' p = false.
Proof.
  unfold labelled. intros Hne Hp%bool_decide_eq_true.
  apply bool_decide_eq_false. congruence.
Qed.

Lemma get_col_set_col_ne c c' v d :
  c ≠ c' → get_col c' (set_col c v d) = get_col c' d.
Proof.
  intros Hne. unfold get_col.
  rewrite filter_set_col; [done|]. intros p. by apply labelled_ne.
Qed.

Lemma index_len_set_col c v d : index_len (set_col c v d) = index_len d.
Proof. unfold set_col. by destruct (existsb _ _). Qed.

Lemma assigned_set_col c v d : assigned c v (set_col c v d).
Proof.
  assert (Hc : labelled c (c, v) = true).
  { unfold labelled. simpl. by apply bool_decide_eq_true. }
  unfold assigned, set_col.
  destruct (existsb (labelled c) (columns d)) eqn:Hex; simpl.
  - split.
    + apply existsb_exists in Hex as (p & Hin & Hp).
      apply existsb_exists. exists (c, v). split; [|done].
      apply in_map_iff. exists p. by rewrite Hp.
    + apply Forall_map, Forall_forall. intros p _. simpl.
      destruct (labelled c p) eqn:Hp; [done|]. by rewrite Hp.
  - split.
    + rewrite existsb_app. simpl. rewrite Hc. by rewrite orb_true_r.
    + apply Forall_app. split; [|by repeat constructor].
      apply Forall_forall. intros p Hin%list_elem_of_In Hp.
      assert (existsb (labelled c) (columns d) = true); [|congruence].
      apply existsb_exists. by exists p.
Qed.

Lemma assigned_set_col_ne c c' v v' d :
  c ≠ c' → assigned c v d → assigned c v (set_col c' v' d).
Proof.
  intros Hne [Hex Hall]. unfold assigned, set_col.
  assert (Hc' : labelled c (c', v') = false).
  { unfold labelled. simpl. apply bool_decide_eq_false. congruence. }
  destruct (existsb (labelled c') (columns d)); simpl.
  - split.
    + apply existsb_exists in Hex as (p & Hin & Hp).
      apply existsb_exists. exists p. split; [|done].
      apply in_map_iff. exists p. split; [|done].
      by rewrite (labelled_ne c c' p Hne Hp).
    + apply Forall_map. eapply Forall_impl; [exact Hall|].
      intros p Hp. simpl. destruct (labelled c' p); [|done].
      by rewrite Hc'.
  - split.
    + rewrite existsb_app, Hex. done.
    + apply Forall_app. split; [done|].
      constructor; [|constructor]. by rewrite Hc'.
Qed.

Lemma set_col_assigned c v d : assigned c v d → set_col c v d = d.
Proof.
  intros [Hex Hall]. unfold set_col. rewrite Hex.
  destruct d as [n cols]. simpl in *. f_equal. clear Hex.
  induction Hall as [|p l Hp Hl IH]; simpl; [done|].
  rewrite IH. destruct (labelled c p) eqn:E; [|done]. by rewrite Hp by done.
Qed.

Lemma get_col_assigned c v d ks :
  assigned c v d → get_col c d = Ok ks → ks = v.
Proof.
  intros [_ Hall]. unfold get_col.
  destruct (List.filter (labelled c) (columns d)) as [|[c0 v0] [|??]] eqn:Hf;
    try done.
  intros [= ->].
  assert (Hin : In (c0, ks) (List.filter (labelled c) (columns d))).
  { rewrite Hf. by left. }
  apply filter_In in Hin as [Hin Hp].
  rewrite Forall_forall in Hall.
  specialize (Hall _ (proj2 (list_elem_of_In _ _) Hin) Hp). congruence.
Qed.

Lemma groupby_mean_ext key val d d' :
  get_col key d = get_col key d' → get_col val d = get_col val d' →
  groupby_mean key val d = groupby_mean key val d'.
Proof. intros Hk Hv. unfold groupby_mean. by rewrite Hk, Hv. Qed.

Lemma groupby_mean_set_col_ne key val c v d :
  c ≠ key → c ≠ val →
  groupby_mean key val (set_col c v d) = groupby_mean key val d.
Proof. intros ??. apply groupby_mean_ext; by apply get_col_set_col_ne. Qed.

Lemma apply_col_set_col_ne {A} (f : cell → result A) c' c v d :
  c ≠ c' → apply_col c' f (set_col c v d) = apply_col c' f d.
Proof. intros ?. unfold apply_col. by rewrite get_col_set_col_ne. Qed.

(** ** The dashboard view *)

(** A successful run, step by step. *)
Lemma dashboard_body_ok files d body d' :
  App.dashboard_body files d = (Ok body, d') →
  ∃ tb mb,
    let d1 := set_col "TenureBucket" (map CStr tb) d in
    apply_col "tenure" App.tenure_bucket d = Ok tb ∧
    apply_col "MonthlyCharges" App.monthly_bucket d = Ok mb ∧
    d' = set_col "MonthlyBucket" (map CStr mb) d1 ∧
    groupby_mean "Contract" "Churn" d = Ok (App.contract body) ∧
    groupby_mean "TenureBucket" "Churn" d1 = Ok (App.tenure body) ∧
    groupby_mean "MonthlyBucket" "Churn" d' = Ok (App.monthly body) ∧
    App.load_metrics files (JObj []) =
      Ok (App.dashboard_metrics body, App.dashboard_active_model body).
Proof.
  unfold App.dashboard_body, App.h_bind, App.h_read, App.h_assign, App.h_ret.
  destruct (groupby_mean "Contract" "Churn" d) as [cr|] eqn:E1; [|done].
  destruct (apply_col "tenure" App.tenure_bucket d) as [tb|] eqn:E2; [|done].
  destruct (groupby_mean "TenureBucket" "Churn" _) as [tr|] eqn:E3; [|done].
  destruct (apply_col "MonthlyCharges" App.monthly_bucket _) as [mb|] eqn:E4;
    [|done].
  destruct (groupby_mean "MonthlyBucket" "Churn" _) as [mr|] eqn:E5; [|done].
  destruct (App.load_metrics files (JObj [])) as [[ms am]|] eqn:E6; [|done].
  intros [= <- <-]. simpl.
  rewrite apply_col_set_col_ne in E4 by done.
  exists tb, mb. done.
Qed.

(** Running the body again from the frame it left gives the same answer and
    leaves the frame as it is. *)
Lemma dashboard_body_again files d r d' :
  App.dashboard_body files d = (r, d') →
  App.dashboard_body files d' = (r, d').
Proof.
  unfold App.dashboard_body, App.h_bind, App.h_read, App.h_assign, App.h_ret.
  destruct (groupby_mean "Contract" "Churn" d) as [cr|] eqn:E1.
  2: { intros [= <- <-]. by rewrite E1. }
  destruct (apply_col "tenure" App.tenure_bucket d) as [tb|] eqn:E2.
  2: { intros [= <- <-]. by rewrite E1, E2. }
  set (d1 := set_col "TenureBucket" (map CStr tb) d).
  assert (H1 : set_col "TenureBucket" (map CStr tb) d1 = d1)
    by apply set_col_assigned, assigned_set_col.
  assert (C1 : groupby_mean "Contract" "Churn" d1 = Ok cr)
    by (unfold d1; by rewrite groupby_mean_set_col_ne).
  assert (T1 : apply_col "tenure" App.tenure_bucket d1 = Ok tb)
    by (unfold d1; by rewrite apply_col_set_col_ne).
  destruct (groupby_mean "TenureBucket" "Churn" d1) as [tr|] eqn:E3.
  2: { intros [= <- <-]. by rewrite C1, T1, H1, E3. }
  destruct (apply_col "MonthlyCharges" App.monthly_bucket d1) as [mb|] eqn:E4.
  2: { intros [= <- <-]. by rewrite C1, T1, H1, E3, E4. }
  set (d2 := set_col "MonthlyBucket" (map CStr mb) d1).
  assert (H2 : set_col "MonthlyBucket" (map CStr mb) d2 = d2)
    by apply set_col_assigned, assigned_set_col.
  assert (H12 : set_col "TenureBucket" (map CStr tb) d2 = d2).
  { apply set_col_assigned, assigned_set_col_ne; [done|]. apply assigned_set_col. }
  assert (C2 : groupby_mean "Contract" "Churn" d2 = Ok cr)
    by (unfold d2; by rewrite groupby_mean_set_col_ne).
  assert (T2 : apply_col "tenure" App.tenure_bucket d2 = Ok tb)
    by (unfold d2; by rewrite apply_col_set_col_ne).
  assert (G2 : groupby_mean "TenureBucket" "Churn" d2 = Ok tr)
    by (unfold d2; by rewrite groupby_mean_set_col_ne).
  assert (M2 : apply_col "MonthlyCharges" App.monthly_bucket d2 = Ok mb)
    by (unfold d2; by rewrite apply_col_set_col_ne).
  destruct (groupby_mean "MonthlyBucket" "Churn" d2) as [mr|] eqn:E5.
  2: { intros [= <- <-]. by rewrite C2, T2, H12, G2, M2, H2, E5. }
  destruct (App.load_metrics files (JObj [])) as [[ms am]|] eqn:E6.
  2: { intros [= <- <-]. by rewrite C2, T2, H12, G2, M2, H2, E5. }
  intros [= <- <-]. by rewrite C2, T2, H12, G2, M2, H2, E5.
Qed.

(** The body leaves the index and every column outside the two bucket
    labels as they were, also when it raises half-way. *)
Lemma dashboard_body_frame files d :
  index_len (App.dashboard_body files d).2 = index_len d ∧
  List.filter other_column (columns (App.dashboard_body files d).2) =
    List.filter other_column (columns d).
Proof.
  assert (HT : ∀ v d0, List.filter other_column (columns (set_col "TenureBucket" v d0))
                      = List.filter other_column (columns d0)).
  { intros v d0. apply filter_set_col. intros p Hp. unfold other_column.
    by rewrite Hp. }
  assert (HM : ∀ v d0, List.filter other_column (columns (set_col "MonthlyBucket" v d0))
                      = List.filter other_column (columns d0)).
  { intros v d0. apply filter_set_col. intros p Hp. unfold other_column.
    rewrite Hp. apply andb_false_r. }
  unfold App.dashboard_body, App.h_bind, App.h_read, App.h_assign, App.h_ret.
  destruct (groupby_mean "Contract" "Churn" d); [|done].
  destruct (apply_col "tenure" App.tenure_bucket d) as [tb|]; [|done].
  destruct (groupby_mean "TenureBucket" "Churn" _);
    [|simpl; by rewrite index_len_set_col, HT].
  destruct (apply_col "MonthlyCharges" App.monthly_bucket _) as [mb|];
    [|simpl; by rewrite index_len_set_col, HT].
  destruct (groupby_mean "MonthlyBucket" "Churn" _);
    [|simpl; by rewrite !index_len_set_col, HM, HT].
  destruct (App.load_metrics files (JObj [])) as [[ms am]|];
    simpl; by rewrite !index_len_set_col, HM, HT.
Qed.

(** ** Group means *)

Lemma group_of_cons k k0 v0 rows :
  group_of k ((k0, v0) :: rows) =
    if decide (k0 = k) then v0 :: group_of k rows else group_of k rows.
Proof.
  unfold group_of. simpl. destruct (decide (k0 = k)) as [->|Hne].
  - by rewrite bool_decide_eq_true_2.
  - by rewrite bool_decide_eq_false_2.
Qed.

Lemma fold_add_to_group rows (m : gmap cell (list cell)) k :
  fold_left add_to_group rows m !! k =
    match group_of k rows with
    | [] => m !! k
    | vs => Some (default [] (m !! k) ++ vs)
    end.
Proof.
  revert m. induction rows as [|[k0 v0] rows IH]; intros m; [done|].
  rewrite group_of_cons. cbn [fold_left]. rewrite IH.
  unfold add_to_group. cbn [fst snd].
  destruct (decide (k0 = k)) as [->|Hne].
  - rewrite lookup_insert_eq. cbn [default].
    destruct (group_of k rows); [done|].
    unfold id. by rewrite <- app_assoc.
  - by rewrite lookup_insert_ne.
Qed.

Lemma group_rows_lookup rows k :
  group_rows rows !! k =
    match group_of k rows with [] => None | vs => Some vs end.
Proof.
  unfold group_rows. rewrite fold_add_to_group, lookup_empty.
  by destruct (group_of k rows).
Qed.

Lemma group_of_elem_of k rows v :
  v ∈ group_of k rows → (k, v) ∈ rows.
Proof.
  unfold group_of. intros ([k' v'] & -> & Hin)%list_elem_of_fmap.
  apply list_elem_of_In, filter_In in Hin as [Hin Hk].
  apply bool_decide_eq_true in Hk. simpl in Hk. subst k'.
  by apply list_elem_of_In.
Qed.

Lemma keyed_rows_elem_of ks vs k v :
  (k, v) ∈ keyed_rows ks vs → k ∈ ks ∧ v ∈ vs.
Proof.
  unfold keyed_rows. intros Hin%list_elem_of_In.
  apply filter_In in Hin as [Hin%list_elem_of_In _].
  split; [by eapply elem_of_zip_l | by eapply elem_of_zip_r].
Qed.

Lemma Qsum_labels vs :
  Forall label01 vs →
  length (numbers vs) = length vs ∧
  (0 <= Qsum (numbers vs))%Q ∧
  (Qsum (numbers vs) <= inject_Z (Z.of_nat (length vs)))%Q.
Proof.
  intros Hall. induction Hall as [|c vs [->| ->] Hvs (IHlen & IHlo & IHhi)].
  - simpl. split; [done|]. split; unfold Qle; simpl; lia.
  - simpl in *. rewrite IHlen. split; [done|].
    rewrite Nat2Z.inj_succ, <- Z.add_1_r, inject_Z_plus.
    change (inject_Z 1) with 1%Q. split; lra.
  - simpl in *. rewrite IHlen. split; [done|].
    rewrite Nat2Z.inj_succ, <- Z.add_1_r, inject_Z_plus.
    change (inject_Z 1) with 1%Q. split; lra.
Qed.

(** The mean of a non-empty group of 0/1 labels is a rate. *)
Lemma mean_labels vs : vs ≠ [] → Forall label01 vs → rate (mean vs).
Proof.
  intros Hne Hall.
  destruct (Qsum_labels vs Hall) as (Hlen & Hlo & Hhi).
  unfold mean.
  destruct (numbers vs) as [|q qs] eqn:Hn.
  { destruct vs; [by destruct Hne|]. simpl in Hlen. lia. }
  exists (Qsum (q :: qs) / inject_Z (Z.of_nat (length (q :: qs))))%Q.
  split; [done|].
  rewrite Hlen in *.
  assert (Hpos : (0 < inject_Z (Z.of_nat (length vs)))%Q).
  { rewrite <- (Zlt_Qlt 0). destruct vs; [done|]. simpl. lia. }
  split.
  - apply Qle_shift_div_l; [done|]. lra.
  - apply Qle_shift_div_r; [done|]. lra.
Qed.

(** The keys of the result occur in the key column. *)
Lemma groupby_mean_keys key val d m k :
  groupby_mean key val d = Ok m → k ∈ dom m →
  ∃ ks, get_col key d = Ok ks ∧ k ∈ ks.
Proof.
  unfold groupby_mean.
  destruct (get_col key d) as [ks|]; simpl; [|done].
  destruct (get_col val d) as [vs|]; simpl; [|done].
  destruct (existsb _ _); [done|]. intros [= <-].
  rewrite dom_fmap, elem_of_dom, group_rows_lookup.
  destruct (group_of k (keyed_rows ks vs)) as [|v l] eqn:Hg;
    [by intros [? ?]|].
  intros _. exists ks. split; [done|].
  assert (Hv : v ∈ group_of k (keyed_rows ks vs)) by (rewrite Hg; by left).
  by apply group_of_elem_of, keyed_rows_elem_of in Hv as [? _].
Qed.

(** With 0/1 labels in the value column, every group mean is a rate. *)
Lemma groupby_mean_rate key val d m vs k r :
  groupby_mean key val d = Ok m → get_col val d = Ok vs →
  Forall label01 vs → m !! k = Some r → rate r.
Proof.
  unfold groupby_mean. intros Hm Hvs Hall.
  destruct (get_col key d) as [ks|]; simpl in Hm; [|done].
  rewrite Hvs in Hm. simpl in Hm.
  destruct (existsb _ _); [done|]. injection Hm as <-.
  rewrite lookup_fmap, group_rows_lookup.
  destruct (group_of k (keyed_rows ks vs)) as [|v l] eqn:Hg; [done|].
  intros [= <-]. apply mean_labels; [done|].
  rewrite <- Hg. apply Forall_forall. intros x Hx.
  rewrite Forall_forall in Hall. apply Hall.
  by apply group_of_elem_of, keyed_rows_elem_of in Hx as [_ ?].
Qed.

Lemma apply_Forall {A} (f : cell → result A) (P : A → Prop) l ys :
  (∀ c y, f c = Ok y → P y) → apply f l = Ok ys → Forall P ys.
Proof.
  intros Hf. revert ys. induction l as [|c l IH]; intros ys; simpl.
  - intros [= <-]. constructor.
  - destruct (f c) as [y|] eqn:Hy; simpl; [|done].
    destruct (apply f l) as [ys'|]; simpl; [|done].
    intros [= <-]. constructor; [by eapply Hf | by apply IH].
Qed.

Lemma tenure_bucket_range t b :
  App.tenure_bucket t = Ok b → b ∈ ["0-12"; "13-24"; "25+"].
Proof.
  unfold App.tenure_bucket, App.cell_le.
  rewrite !elem_of_cons.
  destruct t as [|q|s]; simpl; [| |done].
  - intros [= <-]. auto.
  - destruct (Qle_bool q 12); simpl; [intros [= <-]; auto|].
    destruct (Qle_bool q 24); simpl; intros [= <-]; auto.
Qed.

Lemma monthly_bucket_range t b :
  App.monthly_bucket t = Ok b → b ∈ ["0-50"; "51-100"; "101+"].
Proof.
  unfold App.monthly_bucket, App.cell_le.
  rewrite !elem_of_cons.
  destruct t as [|q|s]; simpl; [| |done].
  - intros [= <-]. auto.
  - destruct (Qle_bool q 50); simpl; [intros [= <-]; auto|].
    destruct (Qle_bool q 100); simpl; intros [= <-]; auto.
Qed.

(** ** What the views answer *)

Lemma dashboard_ok srv body srv' :
  App.dashboard srv = (App.Ok200 body, srv') →
  App.dashboard_body (App.disk srv) (App.df srv) = (Ok body, App.df srv').
Proof.
  unfold App.dashboard.
  destruct (App.dashboard_body _ _) as [[b|e] d']; simpl; [|done].
  by intros [= <- <-].
Qed.

(** C6. For every dashboard response computed from a dataset whose
    normalized labels are all 0 or 1, every churn rate in the contract,
    tenure and monthly mappings lies in [0,1], the tenure-bucket keys are
    among "0-12", "13-24", "25+" and the monthly-bucket keys among "0-50",
    "51-100", "101+". *)
Theorem dashboard_rates_and_buckets srv body srv' :
  labels_normalized (App.df srv) →
  App.dashboard srv = (App.Ok200 body, srv') →
  (∀ k r, App.contract body !! k = Some r → rate r) ∧
  (∀ k r, App.tenure body !! k = Some r → rate r) ∧
  (∀ k r, App.monthly body !! k = Some r → rate r) ∧
  dom (App.tenure body) ⊆ {[CStr "0-12"; CStr "13-24"; CStr "25+"]} ∧
  dom (App.monthly body) ⊆ {[CStr "0-50"; CStr "51-100"; CStr "101+"]}.
Proof.
  intros (vs & Hvs & Hall) Hd%dashboard_ok.
  apply dashboard_body_ok in Hd
    as (tb & mb & Htb & Hmb & Hd' & Hc & Ht & Hm & _).
  cbv zeta in *. set (d := App.df srv) in *.
  set (d1 := set_col "TenureBucket" (map CStr tb) d) in *.
  set (d2 := App.df srv') in *.
  assert (Hvs1 : get_col "Churn" d1 = Ok vs)
    by (unfold d1; by rewrite get_col_set_col_ne).
  assert (Hvs2 : get_col "Churn" d2 = Ok vs)
    by (rewrite Hd'; by rewrite get_col_set_col_ne).
  split; [|split; [|split; [|split]]].
  - intros k r. by eapply groupby_mean_rate.
  - intros k r. by eapply groupby_mean_rate.
  - intros k r. by eapply groupby_mean_rate.
  - intros k Hk.
    destruct (groupby_mean_keys _ _ _ _ k Ht Hk) as (ks & Hks & Hin).
    apply (get_col_assigned _ (map CStr tb)) in Hks;
      [|apply assigned_set_col]. subst ks.
    apply list_elem_of_fmap in Hin as (b & -> & Hb).
    unfold apply_col in Htb.
    destruct (get_col "tenure" d) as [col|]; simpl in Htb; [|done].
    pose proof (apply_Forall _ _ _ _ tenure_bucket_range Htb) as Hrange.
    rewrite Forall_forall in Hrange. specialize (Hrange b Hb).
    rewrite !elem_of_cons, elem_of_nil in Hrange.
    rewrite !elem_of_union, !elem_of_singleton.
    destruct Hrange as [->|[->|[->|[]]]]; auto.
  - intros k Hk.
    destruct (groupby_mean_keys _ _ _ _ k Hm Hk) as (ks & Hks & Hin).
    apply (get_col_assigned _ (map CStr mb)) in Hks;
      [|rewrite Hd'; apply assigned_set_col]. subst ks.
    apply list_elem_of_fmap in Hin as (b & -> & Hb).
    unfold apply_col in Hmb.
    destruct (get_col "MonthlyCharges" d) as [col|]; simpl in Hmb; [|done].
    pose proof (apply_Forall _ _ _ _ monthly_bucket_range Hmb) as Hrange.
    rewrite Forall_forall in Hrange. specialize (Hrange b Hb).
    rewrite !elem_of_cons, elem_of_nil in Hrange.
    rewrite !elem_of_union, !elem_of_singleton.
    destruct Hrange as [->|[->|[->|[]]]]; auto.
Qed.

(** C8. With the metrics file unchanged, a second dashboard request answers
    exactly what the first answered and leaves the server as the first left
    it; a feature-importance request changes nothing, so a second one
    answers the same. *)
Theorem dashboard_and_feature_importance_idempotent srv :
  (App.dashboard (App.dashboard srv).2).1 = (App.dashboard srv).1 ∧
  (App.dashboard (App.dashboard srv).2).2 = (App.dashboard srv).2 ∧
  App.disk (App.dashboard srv).2 = App.disk srv ∧
  (App.feature_importance srv).2 = srv ∧
  (App.feature_importance (App.feature_importance srv).2).1 =
    (App.feature_importance srv).1.
Proof.
  assert (Hagain : App.dashboard (App.dashboard srv).2 = App.dashboard srv).
  { unfold App.dashboard at 2 3.
    destruct (App.dashboard_body (App.disk srv) (App.df srv)) as [r d'] eqn:Hb.
    unfold App.dashboard. simpl.
    by rewrite (dashboard_body_again _ _ _ _ Hb). }
  split; [by rewrite Hagain|]. split; [by rewrite Hagain|].
  split; [|done].
  unfold App.dashboard. by destruct (App.dashboard_body _ _).
Qed.

(** C10. The health view never looks at the model artifact: whenever it
    answers with a body, [model_loaded] is [True]; it answers with a body
    whenever the metrics file is absent or holds a JSON object; and the
    answer is the same whatever became of [model.pkl] on disk or of the
    loaded model. *)
Theorem health_model_loaded_constant srv :
  (App.health srv).2 = srv ∧
  (∀ body, (App.health srv).1 = App.Ok200 body → App.model_loaded body = true) ∧
  ((App.metrics_json (App.disk srv) = None ∨
    ∃ d, App.metrics_json (App.disk srv) = Some (Ok (JObj d))) →
   ∃ body, (App.health srv).1 = App.Ok200 body ∧ App.model_loaded body = true) ∧
  (∀ pkl pipeline,
     (App.health
        {| App.model := pipeline; App.df := App.df srv;
           App.disk := {| App.model_pkl := pkl;
                          App.dataset_csv := App.dataset_csv (App.disk srv);
                          App.metrics_json := App.metrics_json (App.disk srv) |}
        |}).1 = (App.health srv).1).
Proof.
  split; [done|]. split; [|split].
  - intros body. unfold App.health. simpl.
    destruct (App.load_metrics _ _); simpl; [|done]. by intros [= <-].
  - unfold App.health, App.load_metrics. simpl.
    intros [->|[d ->]]; simpl; eexists; done.
  - intros pkl pipeline. unfold App.health, App.load_metrics. done.
Qed.

(** ** Records of a frame *)

Lemma dict_get_dict_fold_same {V} (pairs acc : list (string * V)) k v :
  (∀ p, p ∈ pairs → p.1 = k → p.2 = v) →
  k ∈ pairs.*1 ∨ dict_get k acc = Some v →
  dict_get k (dict_fold pairs acc) = Some v.
Proof.
  revert acc. induction pairs as [|q pairs IH]; intros acc Hsame Hk; simpl.
  - destruct Hk as [Hk|Hk]; [by apply elem_of_nil in Hk | done].
  - apply IH.
    + intros p Hp. apply Hsame. by right.
    + destruct (decide (q.1 = k)) as [Hq|Hq].
      * right. rewrite Hq, <- (Hsame q); [apply dict_get_set_eq|by left|done].
      * destruct Hk as [Hk|Hk].
        -- left. simpl in Hk. apply elem_of_cons in Hk as [Hk|Hk]; [congruence|done].
        -- right. by rewrite dict_get_set_ne.
Qed.

Lemma record_at_assigned c v d i :
  assigned c v d → dict_get c (record_at i d) = Some (nth i v CNaN).
Proof.
  intros [Hex Hall]. unfold record_at.
  apply (dict_get_dict_fold_same _ []).
  - intros p (q & -> & Hq)%list_elem_of_fmap Hc. simpl in *.
    rewrite Forall_forall in Hall.
    rewrite (Hall q Hq); [done|].
    unfold labelled. by apply bool_decide_eq_true.
  - left. apply existsb_exists in Hex as (q & Hq & Hc).
    apply list_elem_of_fmap. exists (q.1, nth i q.2 CNaN). split.
    + simpl. unfold labelled in Hc. by apply bool_decide_eq_true in Hc.
    + apply list_elem_of_fmap. exists q. split; [done|]. by apply list_elem_of_In.
Qed.

Lemma to_records_lookup d i :
  i < index_len d → to_records d !! i = Some (record_at i d).
Proof.
  intros Hi. unfold to_records.
  rewrite list_lookup_fmap, lookup_seq_lt by done. done.
Qed.

Lemma df_empty_strip_columns d : df_empty (strip_columns d) = df_empty d.
Proof. unfold df_empty, strip_columns. simpl. by rewrite length_map. Qed.

Lemma groupby_mean_key_col key val d m :
  groupby_mean key val d = Ok m → ∃ ks, get_col key d = Ok ks.
Proof.
  unfold groupby_mean. destruct (get_col key d) as [ks|]; [|done]. by exists ks.
Qed.

Section ViewsProofs.
Variable pd_DataFrame : list json → result DataFrame.
Variable pd_read_csv : App.Upload → result DataFrame.
Variable shap_Explainer :
  Classifier → Matrix → result (Matrix → result Explanation).

Local Abbreviation predict := (App.predict pd_DataFrame).
Local Abbreviation explain := (App.explain pd_DataFrame shap_Explainer).
Local Abbreviation shap_batch := (App.shap_batch shap_Explainer).
Local Abbreviation batch_predict := (App.batch_predict pd_read_csv shap_Explainer).

(** The predict view forwards what the pipeline returns for the record. *)
Lemma predict_forwards srv data df_input pred preds rows p0 prob rest :
  pd_DataFrame [data] = Ok df_input →
  pl_predict (App.model srv) df_input = Ok (pred :: preds) →
  pl_predict_proba (App.model srv) df_input = Ok ((p0 :: prob :: rest) :: rows) →
  predict srv data =
    (App.Ok200 {| App.prediction := pred; App.probability := prob |}, srv).
Proof.
  intros Hdf Hpred Hproba. unfold App.predict.
  rewrite Hdf. simpl. rewrite Hpred. simpl. by rewrite Hproba.
Qed.

(** C4. When the uploaded file parses to an empty table, batch-predict
    answers 400 with the message "Uploaded CSV is empty"; the answer carries
    no predictions, whatever the model would have returned, and the server
    is left as it was. *)
Theorem batch_predict_empty_upload srv files file raw :
  dict_get "file" files = Some file →
  pd_read_csv file = Ok raw →
  df_empty raw = true →
  batch_predict srv files = (App.Bad400 "Uploaded CSV is empty", srv).
Proof.
  intros Hfile Hraw Hempty. unfold App.batch_predict.
  rewrite Hfile, Hraw. simpl.
  by rewrite df_empty_strip_columns, Hempty.
Qed.

(** C5. When the upload parses to a non-empty table and the pipeline
    returns a prediction and a probability for every row, a failure anywhere
    in the SHAP block does not fail the request: the answer is 200, it has
    one record per row carrying that row's prediction and probability, and
    [batch_feature_importance] is the empty mapping. *)
Theorem batch_predict_survives_shap_failure
    srv files file raw preds proba probs e :
  dict_get "file" files = Some file →
  pd_read_csv file = Ok raw →
  df_empty raw = false →
  pl_predict (App.model srv) (strip_columns raw) = Ok preds →
  pl_predict_proba (App.model srv) (strip_columns raw) = Ok proba →
  column1 proba = Ok probs →
  length preds = index_len raw →
  length probs = index_len raw →
  shap_batch srv (strip_columns raw) = Raise e →
  ∃ body,
    batch_predict srv files = (App.Ok200 body, srv) ∧
    App.batch_feature_importance body = [] ∧
    length (App.predictions body) = index_len raw ∧
    ∀ i p q, preds !! i = Some p → probs !! i = Some q →
      ∃ rec, App.predictions body !! i = Some rec ∧
             dict_get "prediction" rec = Some (CNum (inject_Z p)) ∧
             dict_get "probability" rec = Some (CNum q).
Proof.
  intros Hfile Hraw Hne Hpreds Hproba Hprobs Hlen1 Hlen2 Hshap.
  set (v1 := map (λ p, CNum (inject_Z p)) preds).
  set (v2 := map CNum probs).
  set (results := set_col "probability" v2
                    (set_col "prediction" v1 (strip_columns raw))).
  exists {| App.predictions := to_records results;
            App.batch_feature_importance := [] |}.
  split; [|split; [done|split]].
  - unfold App.batch_predict. rewrite Hfile, Hraw. simpl.
    rewrite df_empty_strip_columns, Hne, Hpreds. simpl.
    rewrite Hproba. simpl. rewrite Hprobs. simpl.
    unfold set_col_list. fold v1 v2.
    replace (length v1 =? index_len (strip_columns raw)) with true
      by (symmetry; apply Nat.eqb_eq; unfold v1; by rewrite length_map).
    simpl.
    replace (length v2 =? index_len (set_col "prediction" v1 (strip_columns raw)))
      with true
      by (symmetry; apply Nat.eqb_eq; unfold v2;
          by rewrite length_map, index_len_set_col).
    simpl. by rewrite Hshap.
  - simpl. unfold to_records. rewrite length_map, length_seq.
    unfold results. by rewrite !index_len_set_col.
  - intros i p q Hp Hq. simpl.
    assert (Hi : i < index_len results).
    { unfold results. rewrite !index_len_set_col. simpl.
      rewrite <- Hlen1. by eapply lookup_lt_Some. }
    exists (record_at i results). split; [by apply to_records_lookup|].
    split.
    + rewrite (record_at_assigned "prediction" v1).
      * unfold v1. by rewrite nth_lookup, list_lookup_fmap, Hp.
      * apply assigned_set_col_ne; [done|]. apply assigned_set_col.
    + rewrite (record_at_assigned "probability" v2).
      * unfold v2. by rewrite nth_lookup, list_lookup_fmap, Hq.
      * apply assigned_set_col.
Qed.

(** C9, as the code has it. The dashboard view assigns the two bucket
    columns of the shared frame: after a request it answers, [TenureBucket]
    and [MonthlyBucket] hold the buckets of [tenure] and [MonthlyCharges];
    after any request, answered or not, the index and every column under
    another label are as before. The explain view leaves the whole server,
    the shared frame included, exactly as it was; it does not read the
    shared frame either: two servers holding the same model give the same
    answer, and the features of a 200 answer are the first record of the
    one-row frame built from the request. *)
Theorem dashboard_assigns_buckets_explain_leaves_frame srv :
  (∀ data, (explain srv data).2 = srv) ∧
  (∀ data srv', App.model srv' = App.model srv →
     (explain srv' data).1 = (explain srv data).1) ∧
  (∀ data body, (explain srv data).1 = App.Ok200 body →
     ∃ df_input,
       pd_DataFrame [data] = Ok df_input ∧
       to_records df_input !! 0 = Some (App.features body)) ∧
  index_len (App.df (App.dashboard srv).2) = index_len (App.df srv) ∧
  List.filter other_column (columns (App.df (App.dashboard srv).2)) =
    List.filter other_column (columns (App.df srv)) ∧
  (∀ body, (App.dashboard srv).1 = App.Ok200 body →
     ∃ tb mb,
       apply_col "tenure" App.tenure_bucket (App.df srv) = Ok tb ∧
       apply_col "MonthlyCharges" App.monthly_bucket (App.df srv) = Ok mb ∧
       get_col "TenureBucket" (App.df (App.dashboard srv).2) = Ok (map CStr tb) ∧
       get_col "MonthlyBucket" (App.df (App.dashboard srv).2) = Ok (map CStr mb)).
Proof.
  split; [done|].
  split; [intros data srv' Hmodel; unfold App.explain; simpl; by rewrite Hmodel|].
  split.
  { intros data body. unfold App.explain. simpl.
    destruct (pd_DataFrame [data]) as [df_input|]; [|done]. simpl.
    destruct (transform _ df_input) as [X|]; [|done]. simpl.
    destruct (shap_Explainer _ X) as [explainer|]; [|done]. simpl.
    destruct (explainer X) as [sv|]; [|done]. simpl.
    destruct (to_records df_input) as [|record records] eqn:Hrec; [done|]. simpl.
    destruct (values sv) as [|vals ?]; [done|]. simpl.
    destruct (base_values sv) as [|base ?]; [done|]. simpl.
    intros [= <-]. exists df_input. split; [done|]. by rewrite Hrec. }
  pose proof (dashboard_body_frame (App.disk srv) (App.df srv)) as [Hlen Hcols].
  assert (Hdf : App.df (App.dashboard srv).2 =
                (App.dashboard_body (App.disk srv) (App.df srv)).2).
  { unfold App.dashboard. by destruct (App.dashboard_body _ _). }
  rewrite Hdf. split; [done|]. split; [done|].
  intros body Hbody.
  assert (Hok : App.dashboard srv = (App.Ok200 body, (App.dashboard srv).2))
    by (rewrite <- Hbody; by destruct (App.dashboard srv)).
  apply dashboard_ok, dashboard_body_ok in Hok
    as (tb & mb & Htb & Hmb & Hd' & _ & Ht & Hm & _).
  cbv zeta in *. rewrite Hdf in Hd', Hm.
  exists tb, mb. split; [done|]. split; [done|].
  destruct (groupby_mean_key_col _ _ _ _ Ht) as (ks & Hks).
  destruct (groupby_mean_key_col _ _ _ _ Hm) as (ks' & Hks').
  pose proof (get_col_assigned _ _ _ _
                (assigned_set_col "TenureBucket" (map CStr tb) (App.df srv)) Hks)
    as ->.
  rewrite Hd' in Hks'.
  pose proof (get_col_assigned _ _ _ _ (assigned_set_col _ _ _) Hks') as ->.
  rewrite Hd'. split; [|done].
  by rewrite get_col_set_col_ne.
Qed.
End ViewsProofs.

(** ** The statements on the concrete run *)

Example demo_startup : App.startup Demo.files = Ok Demo.server.
Proof. reflexivity. Qed.

(** Every white-space character is trimmed on both sides, alone or
    repeated, and the text between is kept; other characters of the same
    lead bytes stay. *)
Example strip_white_space :
  Forall (λ w, strip (w ++ w ++ "Churn rate" ++ w)%string = "Churn rate"
               ∧ strip w = "")
    Demo.white_space ∧
  Forall (λ w, strip (w ++ " Churn " ++ w)%string = (w ++ " Churn " ++ w)%string)
    Demo.no_white_space.
Proof.
  split; apply (bool_decide_unpack _); vm_compute; exact I.
Qed.

Example demo_dashboard :
  App.contract Demo.dashboard_body !! CStr "Monthly" = Some (CNum (1 # 2)) ∧
  App.tenure Demo.dashboard_body !! CStr "25+" = Some (CNum (1 # 2)) ∧
  App.monthly Demo.dashboard_body !! CStr "101+" = Some (CNum 1) ∧
  App.dashboard_active_model Demo.dashboard_body = JStr "Random Forest".
Proof. repeat split; vm_compute; reflexivity. Qed.

Example demo_feature_importance :
  ∃ fi, (App.feature_importance Demo.server).1 =
          App.Ok200 {| App.importance_active_model := JStr "Random Forest";
                       App.importance_feature_importance := JObj fi |} ∧
        length fi = 4.
Proof. eexists. split; vm_compute; reflexivity. Qed.

Example demo_main :
  ∃ fields, Demo.main = Trainer.Saved Demo.forest (JObj fields) ∧
            dict_get "current_model" fields = Some (JStr "Random Forest").
Proof. eexists. split; reflexivity. Qed.

Example demo_logistic_importance :
  Trainer.feature_importance Demo.logistic =
    [ ("Partner_Yes", (20000 # 10000)%Q); ("tenure", (15000 # 10000)%Q);
      ("MonthlyCharges", (2500 # 10000)%Q); ("Partner_No", (1235 # 10000)%Q) ].
Proof. reflexivity. Qed.

Lemma best_model_highest_auc_first_on_tie_witness :
  ∃ before fam after m a c fields,
    Trainer.models = before ++ fam :: after ∧
    Demo.evaluate fam = Ok (m, a, c) ∧
    Demo.main = Trainer.Saved m (JObj fields) ∧
    dict_get "current_model" fields = Some (JStr fam.1) ∧
    (∀ f m' a' c', f ∈ before → Demo.evaluate f = Ok (m', a', c') → (a' < a)%Q) ∧
    (∀ f m' a' c', f ∈ after → Demo.evaluate f = Ok (m', a', c') → (a' <= a)%Q).
Proof.
  apply (best_model_highest_auc_first_on_tie Demo.X_test Demo.y_test
           Demo.GridSearchCV_fit Demo.Pipeline_fit Demo.roc_auc_score
           Demo.accuracy_score).
  intros fam Hfam. unfold Trainer.models in Hfam.
  repeat (apply elem_of_cons in Hfam as [->|Hfam];
          [do 3 eexists; split; [reflexivity|reflexivity]|]).
  by apply elem_of_nil in Hfam.
Defined.

Lemma report_current_model_has_entry_witness :
  ∃ fields name entry a c,
    Demo.report = JObj fields ∧
    dict_get "current_model" fields = Some (JStr name) ∧
    name ∈ Trainer.models.*1 ∧
    dict_get name fields = Some (JObj entry) ∧
    dict_get "auc" entry = Some (JNum a) ∧
    dict_get "accuracy" entry = Some (JNum c).
Proof.
  apply (report_current_model_has_entry Demo.X_test Demo.y_test
           Demo.GridSearchCV_fit Demo.Pipeline_fit Demo.roc_auc_score
           Demo.accuracy_score Demo.forest Demo.report).
  reflexivity.
Defined.

Lemma feature_importance_top20_witness :
  Demo.evaluate ("Logistic Regression", Trainer.LogisticRegression) =
    Ok (Demo.logistic, (4 # 5)%Q, (1 # 2)%Q) ∧
  length (Trainer.feature_importance Demo.logistic) ≤ 20 ∧
  (∃ st' entry,
     Demo.iteration Trainer.initial
       ("Logistic Regression", Trainer.LogisticRegression) = Ok st' ∧
     dict_get "Logistic Regression" (Trainer.metrics st') = Some (JObj entry) ∧
     dict_get "auc" entry = Some (JNum (800 # 1000)) ∧
     dict_get "accuracy" entry = Some (JNum (500 # 1000)) ∧
     dict_get "feature_importance" entry =
       Some (JObj [ ("Partner_Yes", JNum (20000 # 10000));
                    ("tenure", JNum (15000 # 10000));
                    ("MonthlyCharges", JNum (2500 # 10000));
                    ("Partner_No", JNum (1235 # 10000)) ])) ∧
  Trainer.get_feature_names (pre Demo.logistic) =
    Ok ["tenure"; "MonthlyCharges"; "Partner_No"; "Partner_Yes"] ∧
  Trainer.feature_importance Demo.logistic =
    [ ("Partner_Yes", 20000 # 10000); ("tenure", 15000 # 10000);
      ("MonthlyCharges", 2500 # 10000); ("Partner_No", 1235 # 10000) ]%Q.
Proof.
  split; [reflexivity|].
  destruct (feature_importance_top20 Demo.X_test Demo.y_test
              Demo.GridSearchCV_fit Demo.Pipeline_fit Demo.roc_auc_score
              Demo.accuracy_score Trainer.initial
              ("Logistic Regression", Trainer.LogisticRegression)
              Demo.logistic (4 # 5)%Q (1 # 2)%Q eq_refl)
    as (Hstep & Hlen & _ & _ & Hnames & Hcoef & _).
  split; [exact Hlen|].
  destruct (Hnames OtherTransformer ["tenure"; "MonthlyCharges"]
              (λ cols, Ok (flat_map (λ c, [c ++ "_No"; c ++ "_Yes"]%string) cols))
              ["Partner"] [] ["Partner_No"; "Partner_Yes"]
              eq_refl (Forall_nil_2 _) eq_refl) as [Hpost Hkeys].
  destruct (Hkeys _ (Hcoef _ [] eq_refl)) as [Hfi _].
  split; [|split; [exact Hpost | exact Hfi]].
  destruct Hstep as (st' & entry & Hit & Hget & Hauc & Hacc & Hmap).
  exists st', entry.
  split; [exact Hit|]. split; [exact Hget|].
  split; [exact Hauc|]. split; [exact Hacc|exact Hmap].
Defined.

Lemma dashboard_rates_and_buckets_witness :
  labels_normalized (App.df Demo.server) ∧
  (∀ k r, App.contract Demo.dashboard_body !! k = Some r → rate r) ∧
  (∀ k r, App.tenure Demo.dashboard_body !! k = Some r → rate r) ∧
  (∀ k r, App.monthly Demo.dashboard_body !! k = Some r → rate r) ∧
  dom (App.tenure Demo.dashboard_body) ⊆
    {[CStr "0-12"; CStr "13-24"; CStr "25+"]} ∧
  dom (App.monthly Demo.dashboard_body) ⊆
    {[CStr "0-50"; CStr "51-100"; CStr "101+"]}.
Proof.
  assert (Hlabels : labels_normalized (App.df Demo.server)).
  { eexists. split; [reflexivity|].
    repeat constructor; first [by left | by right]. }
  split; [exact Hlabels|].
  apply (dashboard_rates_and_buckets Demo.server Demo.dashboard_body
           (App.dashboard Demo.server).2 Hlabels).
  vm_compute. reflexivity.
Defined.

Lemma batch_predict_empty_upload_witness :
  App.batch_predict Demo.pd_read_csv Demo.shap_Explainer Demo.server
    [("file", Demo.header_only)]
  = (App.Bad400 "Uploaded CSV is empty", Demo.server).
Proof.
  apply (batch_predict_empty_upload Demo.pd_read_csv Demo.shap_Explainer
           Demo.server [("file", Demo.header_only)] Demo.header_only
           Demo.no_rows);
    reflexivity.
Defined.

Lemma batch_predict_survives_shap_failure_witness :
  ∃ body,
    App.batch_predict Demo.pd_read_csv Demo.shap_fails Demo.server
      [("file", Demo.two_rows)]
      = (App.Ok200 body, Demo.server) ∧
    App.batch_feature_importance body = [] ∧
    length (App.predictions body) = index_len Demo.customers ∧
    ∀ i p q, [1; 1]%Z !! i = Some p → [9 # 10; 9 # 10]%Q !! i = Some q →
      ∃ rec, App.predictions body !! i = Some rec ∧
             dict_get "prediction" rec = Some (CNum (inject_Z p)) ∧
             dict_get "probability" rec = Some (CNum q).
Proof.
  apply (batch_predict_survives_shap_failure Demo.pd_read_csv Demo.shap_fails
           Demo.server [("file", Demo.two_rows)] Demo.two_rows Demo.customers
           [1; 1]%Z [[1 - (9 # 10); 9 # 10]; [1 - (9 # 10); 9 # 10]]%Q
           [9 # 10; 9 # 10]%Q "ExplainerError: model type not supported");
    reflexivity.
Defined.

(** The explain view answers a request, with the record of the request as
    its features, and the shared frame has gained no bucket column: both
    labels are still absent from it. *)
Lemma explain_adds_no_bucket_columns :
  (∃ body, (App.explain Demo.pd_DataFrame Demo.shap_Explainer Demo.server
              Demo.customer).1 = App.Ok200 body ∧
           App.features body =
             [ ("tenure", CNum 5); ("MonthlyCharges", CNum 70);
               ("Partner", CStr "No") ]) ∧
  ¬ (∃ v, get_col "TenureBucket"
            (App.df (App.explain Demo.pd_DataFrame Demo.shap_Explainer
                       Demo.server Demo.customer).2) = Ok v) ∧
  ¬ (∃ v, get_col "MonthlyBucket"
            (App.df (App.explain Demo.pd_DataFrame Demo.shap_Explainer
                       Demo.server Demo.customer).2) = Ok v).
Proof.
  split; [eexists; split; reflexivity|].
  split; intros [v Hv]; discriminate Hv.
Qed.

(** * Further properties of the trainer *)

(** ** Dicts built from distinct keys *)

Lemma dict_set_fresh {V} k (v : V) d :
  k ∉ d.*1 → dict_set k v d = d ++ [(k, v)].
Proof.
  induction d as [|[k' v'] d IH]; simpl; [done|].
  intros Hk. apply not_elem_of_cons in Hk as [Hne Hk].
  rewrite decide_False by done. by rewrite IH.
Qed.

Lemma dict_fold_NoDup {V} (pairs acc : list (string * V)) :
  NoDup (acc.*1 ++ pairs.*1) → dict_fold pairs acc = acc ++ pairs.
Proof.
  revert acc. induction pairs as [|[k v] pairs IH]; intros acc Hnd.
  - by rewrite app_nil_r.
  - change (dict_fold ((k, v) :: pairs) acc)
      with (dict_fold pairs (dict_set k v acc)).
    simpl in Hnd. rewrite dict_set_fresh.
    + rewrite IH; [by rewrite <- app_assoc|].
      rewrite fmap_app. simpl. by rewrite <- app_assoc.
    + apply NoDup_app in Hnd as (_ & Hdisj & _).
      intros Hin. apply (Hdisj k Hin). by left.
Qed.

Lemma dict_of_NoDup {V} (pairs : list (string * V)) :
  NoDup pairs.*1 → dict_of pairs = pairs.
Proof. intros Hnd. by apply (dict_fold_NoDup pairs []). Qed.

(** ** Ties in the ranking *)

Lemma insert_sorted_of_magnitude k x l :
  of_magnitude k (Trainer.insert_sorted x l) = of_magnitude k (x :: l).
Proof.
  unfold of_magnitude.
  induction l as [|y l IH]; [done|]. cbn [Trainer.insert_sorted].
  destruct (Qle_bool (Trainer.sort_key x) (Trainer.sort_key y)) eqn:Hxy; [done|].
  cbn [List.filter] in *. rewrite IH.
  destruct (Qeq_bool (Qabs x.2) k) eqn:Hx; [|done].
  destruct (Qeq_bool (Qabs y.2) k) eqn:Hy; [|done].
  exfalso. apply Qeq_bool_iff in Hx, Hy.
  assert (Hle : Qle_bool (Trainer.sort_key x) (Trainer.sort_key y) = true);
    [|congruence].
  apply Qle_bool_iff. unfold Trainer.sort_key. lra.
Qed.

(** X5. [sorted] is stable: features whose importances have the same
    magnitude stay in the order in which [zip] listed them. *)
Theorem py_sorted_stable k l :
  of_magnitude k (Trainer.py_sorted l) = of_magnitude k l.
Proof.
  induction l as [|x l IH]; [done|]. cbn [Trainer.py_sorted fold_right].
  fold (Trainer.py_sorted l). rewrite insert_sorted_of_magnitude.
  unfold of_magnitude in *. cbn [List.filter]. by rewrite IH.
Qed.

(** X6. For a column transformer of the shape the script builds (a "num"
    block, then a "cat" one-hot encoder, then transformers of other names),
    [get_feature_names] lists the numeric columns first and after them the
    names the encoder gives to the categorical columns; it raises exactly
    when the encoder does. *)
Theorem get_feature_names_num_then_cat
    pre scaler numeric names_out categorical rest :
  transformers_ pre =
    ("num", scaler, numeric) :: ("cat", OneHotEncoder names_out, categorical)
      :: rest →
  Forall (λ t, t.1.1 ≠ "num" ∧ t.1.1 ≠ "cat") rest →
  Trainer.get_feature_names pre =
    match names_out categorical with
    | Ok encoded => Ok (numeric ++ encoded)
    | Raise e => Raise e
    end.
Proof.
  intros Hts Hrest. unfold Trainer.get_feature_names. rewrite Hts.
  cbn [Trainer.feature_names_loop String.eqb Ascii.eqb Bool.eqb].
  simpl. destruct (names_out categorical) as [encoded|e]; simpl; [|done].
  by apply feature_names_loop_others.
Qed.

(** ** The mapping when feature names are distinct *)

Lemma round_half_even_nonneg x : (0 <= x)%Q → (0 <= round_half_even x)%Z.
Proof.
  intros Hx. unfold round_half_even.
  assert (Hf : (0 <= Qfloor x)%Z).
  { change 0%Z with (Qfloor 0). by apply Qfloor_resp_le. }
  destruct (Qcompare _ _); [destruct (Z.even _)|..]; lia.
Qed.

Lemma py_round_nonneg x n : (0 <= x)%Q → (0 <= py_round x n)%Q.
Proof.
  intros Hx. unfold py_round. cbv zeta. unfold Qle. simpl.
  rewrite Z.mul_1_r. apply round_half_even_nonneg.
  apply Qmult_le_0_compat; [done|].
  change 0%Q with (inject_Z 0). rewrite <- Zle_Qle. lia.
Qed.

Lemma StronglySorted_weaken {A} (R R' : A → A → Prop) l :
  (∀ x y, R x y → R' x y) → StronglySorted R l → StronglySorted R' l.
Proof.
  intros HR. induction 1 as [|x l Hl IH Hx]; constructor; [done|].
  eapply Forall_impl; [exact Hx|]. intros y. apply HR.
Qed.

Lemma zip_keys_NoDup (names : list string) (imp : list Q) :
  NoDup names → NoDup (zip names imp).*1.
Proof.
  intros Hnd. revert imp. induction Hnd as [|n names Hn Hnd IH]; intros imp;
    [constructor|].
  destruct imp as [|v imp]; [constructor|]. simpl. constructor; [|apply IH].
  intros Hin. apply Hn.
  apply list_elem_of_fmap in Hin as ([n' v'] & -> & Hin).
  by apply elem_of_zip_l in Hin.
Qed.

Lemma top20_keys_NoDup names imp :
  NoDup names → NoDup (Trainer.top20 names imp).*1.
Proof.
  intros Hnd. unfold Trainer.top20.
  apply (sublist_NoDup (take 20 (Trainer.py_sorted (zip names imp))).*1
           (Trainer.py_sorted (zip names imp)).*1).
  - rewrite py_sorted_Permutation. by apply zip_keys_NoDup.
  - rewrite fmap_take. apply sublist_take.
Qed.

(** X7. When the post-encoding feature names are distinct, the recorded
    mapping is exactly the ranked pairs with rounded values: it lists
    min(20, number of features paired with an importance) features, in
    descending order of absolute importance. *)
Theorem feature_importance_ranked model names imp :
  Trainer.get_feature_names (pre model) = Ok names →
  Trainer.importance_of (clf model) = Ok (Some imp) →
  NoDup names →
  Trainer.feature_importance model =
    map (λ x, (x.1, py_round x.2 4)) (Trainer.top20 names imp) ∧
  length (Trainer.feature_importance model) =
    20 `min` (length names `min` length imp) ∧
  StronglySorted (λ x y, (Qabs y.2 <= Qabs x.2)%Q) (Trainer.top20 names imp).
Proof.
  intros Hnames Himp Hnd.
  assert (Hfi : Trainer.feature_importance model =
                map (λ x, (x.1, py_round x.2 4)) (Trainer.top20 names imp)).
  { unfold Trainer.feature_importance, Trainer.extract_importance.
    rewrite Hnames. simpl. rewrite Himp.
    apply dict_of_NoDup. rewrite <- list_fmap_compose.
    by apply top20_keys_NoDup. }
  split; [done|]. split.
  - rewrite Hfi, length_map. unfold Trainer.top20.
    rewrite length_take, (Permutation_length (py_sorted_Permutation _)).
    by rewrite length_zip.
  - unfold Trainer.top20.
    pose proof (py_sorted_StronglySorted (zip names imp)) as Hs.
    rewrite <- (take_drop 20 (Trainer.py_sorted (zip names imp))) in Hs.
    apply StronglySorted_app_1_l in Hs.
    eapply StronglySorted_weaken; [|exact Hs].
    intros x y. unfold key_le, Trainer.sort_key. lra.
Qed.

(** X8. For a classifier with [coef_] (the linear model) no recorded
    importance is negative. *)
Theorem linear_importance_nonnegative model row rows k v :
  coef_ (clf model) = Some (row :: rows) →
  (k, v) ∈ Trainer.feature_importance model → (0 <= v)%Q.
Proof.
  intros Hcoef. unfold Trainer.feature_importance, Trainer.extract_importance.
  destruct (Trainer.get_feature_names (pre model)) as [names|]; simpl;
    [|by intros ?%elem_of_nil].
  unfold Trainer.importance_of. rewrite Hcoef. simpl.
  intros Hin%elem_of_dict_of.
  apply list_elem_of_fmap in Hin as ([k' w] & [= -> ->] & Hin).
  apply py_round_nonneg.
  apply top20_from_zip, elem_of_zip_r in Hin.
  apply list_elem_of_fmap in Hin as (c & -> & _). apply Qabs_nonneg.
Qed.

(** ** Outcomes of a run *)

Section TrainerOutcomes.
Variable X_test : DataFrame.
Variable y_test : list Z.
Variable GridSearchCV_fit : Trainer.BaseClf → Trainer.Grid → result Pipeline.
Variable Pipeline_fit : Trainer.BaseClf → result Pipeline.
Variable roc_auc_score : list Z → list Q → result Q.
Variable accuracy_score : list Z → list Z → result Q.

Local Abbreviation evaluate :=
  (Trainer.evaluate X_test y_test GridSearchCV_fit Pipeline_fit
     roc_auc_score accuracy_score).
Local Abbreviation iteration :=
  (Trainer.iteration X_test y_test GridSearchCV_fit Pipeline_fit
     roc_auc_score accuracy_score).
Local Abbreviation train_loop :=
  (Trainer.train_loop X_test y_test GridSearchCV_fit Pipeline_fit
     roc_auc_score accuracy_score).
Local Abbreviation main :=
  (Trainer.main X_test y_test GridSearchCV_fit Pipeline_fit
     roc_auc_score accuracy_score).

Lemma iteration_raises st fam e :
  evaluate fam = Raise e → iteration st fam = Raise e.
Proof. intros Hev. unfold Trainer.iteration. by rewrite Hev. Qed.

Lemma iteration_ok_scored st fam st' :
  iteration st fam = Ok st' → ∃ m a c, evaluate fam = Ok (m, a, c).
Proof.
  unfold Trainer.iteration.
  destruct (evaluate fam) as [[[m a] c]|e]; [|done]. by exists m, a, c.
Qed.

Lemma train_loop_app fams1 fams2 st :
  train_loop (fams1 ++ fams2) st = train_loop fams1 st ≫= train_loop fams2.
Proof.
  revert st. induction fams1 as [|fam fams1 IH]; intros st; [done|].
  cbn [app Trainer.train_loop].
  destruct (iteration st fam) as [st1|e]; simpl; [apply IH|done].
Qed.

(** A finished loop has scored every family and recorded an entry for each,
    in iteration order. *)
Lemma train_loop_metrics fams st st' :
  train_loop fams st = Ok st' →
  ∃ scores,
    Forall2 (λ fam r, evaluate fam = Ok r) fams scores ∧
    Trainer.metrics st' =
      dict_fold
        (zip_with (λ (fam : string * Trainer.BaseClf) (r : Pipeline * Q * Q),
                     (fam.1, Trainer.metrics_entry r.1.2 r.2
                               (Trainer.feature_importance r.1.1)))
                  fams scores)
        (Trainer.metrics st).
Proof.
  revert st. induction fams as [|fam fams IH]; intros st; cbn [Trainer.train_loop].
  - intros [= <-]. exists []. split; [constructor|done].
  - destruct (iteration st fam) as [st1|e] eqn:Hit; simpl; [|done].
    intros Hloop. destruct (IH st1 Hloop) as (scores & Hscores & Hmet).
    destruct (iteration_ok_scored _ _ _ Hit) as (m & a & c & Hev).
    destruct (iteration_scored X_test y_test GridSearchCV_fit Pipeline_fit
                roc_auc_score accuracy_score st fam m a c Hev)
      as (st1' & Hit' & Hmet1 & _).
    rewrite Hit in Hit'. injection Hit' as <-.
    exists ((m, a, c) :: scores). split; [by constructor|].
    rewrite Hmet, Hmet1. done.
Qed.

(** X1. A saved report has exactly four top-level keys, the three families
    in iteration order and then "current_model", and the entry of every
    family, winner or not, is an object holding under "auc" and "accuracy"
    that family's own scores rounded to 3 decimals and under
    "feature_importance" the importance mapping of that family's own fitted
    pipeline. *)
Theorem report_covers_every_family model_pkl report :
  main = Trainer.Saved model_pkl report →
  ∃ fields,
    report = JObj fields ∧
    fields.*1 = Trainer.models.*1 ++ ["current_model"] ∧
    ∀ fam, fam ∈ Trainer.models →
      ∃ m a c entry,
        evaluate fam = Ok (m, a, c) ∧
        dict_get fam.1 fields = Some (JObj entry) ∧
        entry.*1 = ["auc"; "accuracy"; "feature_importance"] ∧
        dict_get "auc" entry = Some (JNum (py_round a 3)) ∧
        dict_get "accuracy" entry = Some (JNum (py_round c 3)) ∧
        dict_get "feature_importance" entry =
          Some (JObj (map (λ x, (x.1, JNum x.2)) (Trainer.feature_importance m))).
Proof.
  unfold Trainer.main.
  destruct (train_loop Trainer.models Trainer.initial) as [st|e] eqn:Hloop;
    [|done].
  destruct (train_loop_metrics _ _ _ Hloop) as (scores & Hscores & Hmet).
  unfold Trainer.models in Hscores, Hmet.
  apply Forall2_cons_inv_l in Hscores as ([[m1 a1] c1] & s1 & Hev1 & Hscores & ->).
  apply Forall2_cons_inv_l in Hscores as ([[m2 a2] c2] & s2 & Hev2 & Hscores & ->).
  apply Forall2_cons_inv_l in Hscores as ([[m3 a3] c3] & s3 & Hev3 & Hscores & ->).
  apply Forall2_nil_inv_l in Hscores as ->.
  simpl in Hmet.
  unfold Trainer.save. destruct (Trainer.best_model st) as [m|]; [|done].
  intros [= <- <-]. eexists. split; [reflexivity|]. rewrite Hmet.
  split; [reflexivity|].
  assert (Hentry : ∀ (m : Pipeline) (a c : Q) (v : json),
            v = Trainer.metrics_entry a c (Trainer.feature_importance m) →
            ∃ entry,
              v = JObj entry ∧
              entry.*1 = ["auc"; "accuracy"; "feature_importance"] ∧
              dict_get "auc" entry = Some (JNum (py_round a 3)) ∧
              dict_get "accuracy" entry = Some (JNum (py_round c 3)) ∧
              dict_get "feature_importance" entry =
                Some (JObj (map (λ x, (x.1, JNum x.2))
                              (Trainer.feature_importance m)))).
  { intros m' a c v ->. eexists. split; [reflexivity|]. by repeat split. }
  intros fam Hfam. unfold Trainer.models in Hfam.
  apply elem_of_cons in Hfam as [->|Hfam].
  { destruct (Hentry m1 a1 c1 _ eq_refl) as (entry & He & Hrest).
    exists m1, a1, c1, entry. split; [done|]. split; [|done].
    by rewrite <- He. }
  apply elem_of_cons in Hfam as [->|Hfam].
  { destruct (Hentry m2 a2 c2 _ eq_refl) as (entry & He & Hrest).
    exists m2, a2, c2, entry. split; [done|]. split; [|done].
    by rewrite <- He. }
  apply elem_of_cons in Hfam as [->|Hfam].
  { destruct (Hentry m3 a3 c3 _ eq_refl) as (entry & He & Hrest).
    exists m3, a3, c3, entry. split; [done|]. split; [|done].
    by rewrite <- He. }
  by apply elem_of_nil in Hfam.
Qed.

(** X2. There is no [try] around fitting and scoring: when a family raises
    after the families before it were scored, the script stops with that
    exception and saves neither a model nor a report, however good the
    earlier families were. *)
Theorem failing_family_aborts_run before fam after e :
  Trainer.models = before ++ fam :: after →
  (∀ f, f ∈ before → ∃ m a c, evaluate f = Ok (m, a, c)) →
  evaluate fam = Raise e →
  main = Trainer.Crashed e.
Proof.
  intros Hsplit Hbefore Hev. unfold Trainer.main.
  rewrite Hsplit, train_loop_app.
  destruct (train_loop_selects X_test y_test GridSearchCV_fit Pipeline_fit
              roc_auc_score accuracy_score before Trainer.initial Hbefore)
    as (st1 & -> & _).
  simpl. by rewrite (iteration_raises _ _ _ Hev).
Qed.

(** X3. In a run whose scores are numbers, the exit with "No model
    trained successfully" is not reached once one family either raises or is
    scored with an AUC above the starting value -1: the run then crashes or
    saves a model. Scores are rationals here; a nan score, for which
    [auc > best_auc] is False, is not represented and is outside this
    statement. *)
Theorem scored_above_start_avoids_exit fam :
  fam ∈ Trainer.models →
  (∀ m a c, evaluate fam = Ok (m, a, c) → (-1 < a)%Q) →
  main ≠ Trainer.Exit1.
Proof.
  intros Hfam Hgt. unfold Trainer.main.
  destruct (train_loop Trainer.models Trainer.initial) as [st|e] eqn:Hloop;
    [|done].
  unfold Trainer.save.
  destruct (Trainer.best_model st) as [m|] eqn:Hbest; [done|]. intros _.
  destruct (train_loop_metrics _ _ _ Hloop) as (scores & Hscores & _).
  assert (Hall : ∀ f, f ∈ Trainer.models → ∃ m a c, evaluate f = Ok (m, a, c)).
  { intros f Hf. apply list_elem_of_lookup in Hf as [i Hi].
    destruct (Forall2_lookup_l _ _ _ _ _ Hscores Hi) as ([[m a] c] & _ & Hev).
    by exists m, a, c. }
  destruct (train_loop_selects X_test y_test GridSearchCV_fit Pipeline_fit
              roc_auc_score accuracy_score Trainer.models Trainer.initial Hall)
    as (st' & Hloop' & Hsel).
  rewrite Hloop in Hloop'. injection Hloop' as <-.
  destruct Hsel as [(_ & _ & _ & Hle)|(?&?&?&?&?&?&_&_& Hsome &_)];
    [|congruence].
  destruct (Hall fam Hfam) as (m & a & c & Hev).
  specialize (Hle fam m a c Hfam Hev). specialize (Hgt m a c Hev).
  simpl in Hle. apply (Qlt_not_le _ _ Hgt Hle).
Qed.

(** X4. Trainer and server agree through the metrics file: when the
    server reads the report a run has saved, the health view names as
    active model the family whose pipeline was saved as [model.pkl], and the
    feature-importance view answers that same pipeline's importance
    mapping. *)
Theorem server_reports_trained_model model_pkl report srv :
  main = Trainer.Saved model_pkl report →
  App.metrics_json (App.disk srv) = Some (Ok report) →
  ∃ fam a c,
    fam ∈ Trainer.models ∧
    evaluate fam = Ok (model_pkl, a, c) ∧
    (App.health srv).1 =
      App.Ok200 {| App.status := "ok"; App.model_loaded := true;
                   App.health_active_model := JStr fam.1 |} ∧
    (App.feature_importance srv).1 =
      App.Ok200
        {| App.importance_active_model := JStr fam.1;
           App.importance_feature_importance :=
             JObj (map (λ x, (x.1, JNum x.2))
                       (Trainer.feature_importance model_pkl)) |}.
Proof.
  unfold Trainer.main.
  destruct (train_loop Trainer.models Trainer.initial) as [st|e] eqn:Hloop;
    [|done].
  destruct (train_loop_metrics _ _ _ Hloop) as (scores & Hscores & Hmet).
  assert (Hall : ∀ fam, fam ∈ Trainer.models → ∃ m a c, evaluate fam = Ok (m, a, c)).
  { intros fam Hfam. apply list_elem_of_lookup in Hfam as [i Hi].
    destruct (Forall2_lookup_l _ _ _ _ _ Hscores Hi) as ([[m a] c] & _ & Hev).
    by exists m, a, c. }
  destruct (train_loop_selects X_test y_test GridSearchCV_fit Pipeline_fit
              roc_auc_score accuracy_score Trainer.models Trainer.initial Hall)
    as (st' & Hloop' & Hsel).
  rewrite Hloop in Hloop'. injection Hloop' as <-.
  unfold Trainer.save.
  destruct Hsel as [(Hnone & _)
                   |(before & fam & after & m & a & c & Hsplit & Hev & Hm & Hn & _)].
  { rewrite Hnone. done. }
  rewrite Hm, Hn. intros [= <- <-] Hfile.
  assert (Hfam : fam ∈ Trainer.models).
  { rewrite Hsplit, elem_of_app. right. by left. }
  exists fam, a, c. split; [done|]. split; [done|].
  unfold Trainer.models in Hscores, Hmet, Hfam.
  apply Forall2_cons_inv_l in Hscores as ([[m1 a1] c1] & s1 & Hev1 & Hscores & ->).
  apply Forall2_cons_inv_l in Hscores as ([[m2 a2] c2] & s2 & Hev2 & Hscores & ->).
  apply Forall2_cons_inv_l in Hscores as ([[m3 a3] c3] & s3 & Hev3 & Hscores & ->).
  apply Forall2_nil_inv_l in Hscores as ->.
  simpl in Hmet.
  unfold App.health, App.feature_importance, App.feature_importance_body,
    App.load_metrics.
  rewrite Hfile, Hmet.
  apply elem_of_cons in Hfam as [->|Hfam];
    [rewrite Hev1 in Hev; injection Hev as <- <- <-; split; reflexivity|].
  apply elem_of_cons in Hfam as [->|Hfam];
    [rewrite Hev2 in Hev; injection Hev as <- <- <-; split; reflexivity|].
  apply elem_of_cons in Hfam as [->|Hfam];
    [rewrite Hev3 in Hev; injection Hev as <- <- <-; split; reflexivity|].
  by apply elem_of_nil in Hfam.
Qed.
End TrainerOutcomes.

(** * Further properties of the server *)

(** ** Assigning a column that is there once *)

Lemma filter_labelled_replace c v (l : list (string * list cell)) :
  List.filter (labelled c) (map (λ p, if labelled c p then (c, v) else p) l) =
    map (λ _, (c, v)) (List.filter (labelled c) l).
Proof.
  assert (Hc : labelled c (c, v) = true).
  { unfold labelled. simpl. by apply bool_decide_eq_true. }
  induction l as [|p l IH]; [done|]. simpl.
  destruct (labelled c p) eqn:Hp; simpl.
  - by rewrite Hc, IH.
  - by rewrite Hp, IH.
Qed.

Lemma existsb_labelled_filter c (l : list (string * list cell)) :
  existsb (labelled c) l = negb (Nat.eqb (length (List.filter (labelled c) l)) 0).
Proof.
  induction l as [|p l IH]; [done|]. simpl.
  destruct (labelled c p); simpl; [done|exact IH].
Qed.

(** After [df[c] = v], [df[c]] is [v], provided the label did not occur
    more than once before. *)
Lemma get_col_set_col_eq c v d :
  length (List.filter (labelled c) (columns d)) ≤ 1 →
  get_col c (set_col c v d) = Ok v.
Proof.
  intros Hlen. unfold get_col, set_col.
  rewrite existsb_labelled_filter.
  destruct (List.filter (labelled c) (columns d)) as [|p [|q l]] eqn:Hf;
    simpl in *; [| |lia].
  - rewrite List.filter_app, Hf. simpl.
    unfold labelled at 1. simpl. by rewrite bool_decide_eq_true_2.
  - by rewrite filter_labelled_replace, Hf.
Qed.

Lemma get_col_once c d v :
  get_col c d = Ok v → length (List.filter (labelled c) (columns d)) ≤ 1.
Proof.
  unfold get_col.
  destruct (List.filter (labelled c) (columns d)) as [|[??] [|??]]; simpl;
    [done|lia|done].
Qed.

Lemma get_col_elem_of c d v : get_col c d = Ok v → (c, v) ∈ columns d.
Proof.
  unfold get_col.
  destruct (List.filter (labelled c) (columns d)) as [|[c0 v0] [|??]] eqn:Hf;
    try done.
  intros [= ->].
  assert (Hin : In (c0, v) (List.filter (labelled c) (columns d)))
    by (rewrite Hf; by left).
  apply filter_In in Hin as [Hin Hc]. apply bool_decide_eq_true in Hc.
  simpl in Hc. subst c0. by apply list_elem_of_In.
Qed.

(** ** Frames whose columns all have one cell per row *)

Lemma well_formed_set_col c v d :
  well_formed d → length v = index_len d → well_formed (set_col c v d).
Proof.
  unfold well_formed, set_col. intros Hwf Hv.
  destruct (existsb (labelled c) (columns d)); simpl.
  - apply Forall_map. eapply Forall_impl; [exact Hwf|].
    intros p Hp. simpl. by destruct (labelled c p).
  - apply Forall_app. split; [done|]. by repeat constructor.
Qed.


Lemma well_formed_get_col c d v :
  well_formed d → get_col c d = Ok v → length v = index_len d.
Proof.
  unfold well_formed. intros Hwf Hget%get_col_elem_of.
  rewrite Forall_forall in Hwf. exact (Hwf _ Hget).
Qed.

Lemma length_apply {A} (f : cell → result A) l ys :
  apply f l = Ok ys → length ys = length l.
Proof.
  revert ys. induction l as [|c l IH]; intros ys; simpl.
  - by intros [= <-].
  - destruct (f c); simpl; [|done].
    destruct (apply f l) as [ys'|]; simpl; [|done].
    intros [= <-]. simpl. by rewrite (IH ys').
Qed.

(** ** Startup *)

Lemma strip_columns_labels d :
  (columns (strip_columns d)).*1 = strip <$> (columns d).*1.
Proof.
  unfold strip_columns. simpl.
  induction (columns d) as [|p l IH]; [done|]. simpl in *. by f_equal.
Qed.







(** ** The dashboard view, continued *)

Lemma apply_bucket_ok (f : cell → result string) l :
  (∀ c, is_str c = false → ∃ b, f c = Ok b) →
  Forall (λ c, is_str c = false) l → ∃ bs, apply f l = Ok bs.
Proof.
  intros Hf. induction 1 as [|c l Hc _ [bs IH]]; simpl; [by eexists|].
  destruct (Hf c Hc) as [b ->]. simpl. rewrite IH. simpl. by eexists.
Qed.

Lemma tenure_bucket_ok c : is_str c = false → ∃ b, App.tenure_bucket c = Ok b.
Proof.
  unfold App.tenure_bucket, App.cell_le. destruct c as [|q|s]; simpl; [..|done].
  - by eexists.
  - intros _. destruct (Qle_bool q 12); simpl; [by eexists|].
    destruct (Qle_bool q 24); by eexists.
Qed.

Lemma monthly_bucket_ok c : is_str c = false → ∃ b, App.monthly_bucket c = Ok b.
Proof.
  unfold App.monthly_bucket, App.cell_le. destruct c as [|q|s]; simpl; [..|done].
  - by eexists.
  - intros _. destruct (Qle_bool q 50); simpl; [by eexists|].
    destruct (Qle_bool q 100); by eexists.
Qed.

Lemma groupby_mean_ok key val d ks vs :
  get_col key d = Ok ks → get_col val d = Ok vs →
  Forall (λ c, is_str c = false) vs →
  ∃ m, groupby_mean key val d = Ok m.
Proof.
  intros Hk Hv Hall. unfold groupby_mean. rewrite Hk, Hv. simpl.
  destruct (existsb _ _) eqn:Hex; [|by eexists].
  apply existsb_exists in Hex as ([k v] & Hin & Hstr).
  apply list_elem_of_In, keyed_rows_elem_of in Hin as [_ Hin].
  rewrite Forall_forall in Hall. simpl in Hstr. by rewrite (Hall v Hin) in Hstr.
Qed.

(** X14. The dashboard answers 200 whenever the shared frame has exactly
    one column under each of "Contract", "tenure", "MonthlyCharges" and
    "Churn", the last three free of strings, at most one column already
    named "TenureBucket" or "MonthlyBucket", and the metrics file is absent
    or holds a JSON object. *)
Theorem dashboard_answers srv cs ts ms vs :
  get_col "Contract" (App.df srv) = Ok cs →
  get_col "tenure" (App.df srv) = Ok ts →
  get_col "MonthlyCharges" (App.df srv) = Ok ms →
  get_col "Churn" (App.df srv) = Ok vs →
  Forall (λ c, is_str c = false) ts →
  Forall (λ c, is_str c = false) ms →
  Forall (λ c, is_str c = false) vs →
  length (List.filter (labelled "TenureBucket") (columns (App.df srv))) ≤ 1 →
  length (List.filter (labelled "MonthlyBucket") (columns (App.df srv))) ≤ 1 →
  (App.metrics_json (App.disk srv) = None ∨
   ∃ report, App.metrics_json (App.disk srv) = Some (Ok (JObj report))) →
  ∃ body, (App.dashboard srv).1 = App.Ok200 body.
Proof.
  intros Hcs Hts Hms Hvs Hts' Hms' Hvs' HT HM Hmetrics.
  unfold App.dashboard, App.dashboard_body, App.h_bind, App.h_read,
    App.h_assign, App.h_ret.
  destruct (groupby_mean_ok "Contract" "Churn" _ cs vs Hcs Hvs Hvs') as [cr ->].
  unfold apply_col at 1. rewrite Hts. simpl.
  destruct (apply_bucket_ok _ ts tenure_bucket_ok Hts') as [tb ->].
  set (d1 := set_col "TenureBucket" (map CStr tb) (App.df srv)).
  assert (HT1 : get_col "TenureBucket" d1 = Ok (map CStr tb))
    by by apply get_col_set_col_eq.
  assert (Hvs1 : get_col "Churn" d1 = Ok vs)
    by (unfold d1; by rewrite get_col_set_col_ne).
  destruct (groupby_mean_ok "TenureBucket" "Churn" d1 _ vs HT1 Hvs1 Hvs')
    as [tr ->].
  unfold apply_col. unfold d1 at 1. rewrite get_col_set_col_ne, Hms by done.
  simpl. destruct (apply_bucket_ok _ ms monthly_bucket_ok Hms') as [mb ->].
  set (d2 := set_col "MonthlyBucket" (map CStr mb) d1).
  assert (HM2 : get_col "MonthlyBucket" d2 = Ok (map CStr mb)).
  { apply get_col_set_col_eq. unfold d1.
    rewrite filter_set_col; [done|]. intros p. by apply labelled_ne. }
  assert (Hvs2 : get_col "Churn" d2 = Ok vs)
    by (unfold d2; by rewrite get_col_set_col_ne).
  destruct (groupby_mean_ok "MonthlyBucket" "Churn" d2 _ vs HM2 Hvs2 Hvs')
    as [mr ->].
  unfold App.load_metrics.
  destruct Hmetrics as [->|[report ->]]; simpl; by eexists.
Qed.

(** X15. A dashboard request that fails can leave the shared frame half
    updated. If the contract grouping or the tenure bucketing raises, the
    answer is 500 and the server is untouched; if those succeed and the
    monthly-charge bucketing raises (a string in "MonthlyCharges", say), the
    answer is 500 and the frame has been assigned "TenureBucket" but not
    "MonthlyBucket". *)
Theorem dashboard_failure_points srv :
  ((∃ e, groupby_mean "Contract" "Churn" (App.df srv) = Raise e) ∨
   (∃ e, apply_col "tenure" App.tenure_bucket (App.df srv) = Raise e) →
   App.dashboard srv = (App.Error500, srv)) ∧
  (∀ m tb e,
     groupby_mean "Contract" "Churn" (App.df srv) = Ok m →
     apply_col "tenure" App.tenure_bucket (App.df srv) = Ok tb →
     apply_col "MonthlyCharges" App.monthly_bucket (App.df srv) = Raise e →
     (App.dashboard srv).1 = App.Error500 ∧
     App.df (App.dashboard srv).2 =
       set_col "TenureBucket" (map CStr tb) (App.df srv)).
Proof.
  split.
  - intros Hfail. unfold App.dashboard, App.dashboard_body, App.h_bind,
      App.h_read, App.h_assign, App.h_ret.
    destruct srv as [mdl d files]. simpl in *.
    destruct Hfail as [[e ->]|[e He]]; [done|].
    destruct (groupby_mean "Contract" "Churn" d); [|done]. by rewrite He.
  - intros m tb e Hm Htb Hmb.
    unfold App.dashboard, App.dashboard_body, App.h_bind, App.h_read,
      App.h_assign, App.h_ret.
    rewrite Hm, Htb. rewrite apply_col_set_col_ne by done. rewrite Hmb.
    by destruct (groupby_mean "TenureBucket" "Churn" _).
Qed.

Lemma elem_of_zip_same_length {A B} (l : list A) (k : list B) x :
  length l = length k → x ∈ l → ∃ y, (x, y) ∈ zip l k.
Proof.
  revert k. induction l as [|a l IH]; intros [|b k] Hlen Hx; simpl in *;
    try done.
  - by apply elem_of_nil in Hx.
  - apply elem_of_cons in Hx as [->|Hx].
    + exists b. by left.
    + destruct (IH k ltac:(lia) Hx) as [y Hy]. exists y. by right.
Qed.

Lemma elem_of_group_of k v rows : (k, v) ∈ rows → v ∈ group_of k rows.
Proof.
  intros Hin. unfold group_of. apply list_elem_of_fmap. exists (k, v).
  split; [done|]. apply list_elem_of_In, filter_In.
  split; [by apply list_elem_of_In|]. by apply bool_decide_eq_true.
Qed.

(** The groups are exactly the non-NaN values of the key column. *)
Lemma groupby_mean_dom key val d m ks vs k :
  groupby_mean key val d = Ok m →
  get_col key d = Ok ks → get_col val d = Ok vs → length ks = length vs →
  k ∈ dom m ↔ k ∈ ks ∧ k ≠ CNaN.
Proof.
  unfold groupby_mean. intros Hm Hks Hvs Hlen. rewrite Hks, Hvs in Hm.
  simpl in Hm. destruct (existsb _ _); [done|]. injection Hm as <-.
  rewrite dom_fmap, elem_of_dom, group_rows_lookup. split.
  - destruct (group_of k (keyed_rows ks vs)) as [|v l] eqn:Hg;
      [by intros [? ?]|]. intros _.
    assert (Hv : v ∈ group_of k (keyed_rows ks vs)) by (rewrite Hg; by left).
    apply group_of_elem_of in Hv.
    split; [by apply keyed_rows_elem_of in Hv as [? _]|].
    intros ->. unfold keyed_rows in Hv.
    by apply list_elem_of_In, filter_In in Hv as [_ Hv].
  - intros [Hin Hnan].
    destruct (elem_of_zip_same_length ks vs k Hlen Hin) as [v Hv].
    assert (Hrow : (k, v) ∈ keyed_rows ks vs).
    { unfold keyed_rows. apply list_elem_of_In, filter_In.
      split; [by apply list_elem_of_In|]. simpl. by destruct k. }
    apply elem_of_group_of in Hrow.
    destruct (group_of k (keyed_rows ks vs)); [by apply elem_of_nil in Hrow|].
    by eexists.
Qed.

Lemma apply_elem_of {A} (f : cell → result A) l ys y :
  apply f l = Ok ys → y ∈ ys ↔ ∃ c, c ∈ l ∧ f c = Ok y.
Proof.
  revert ys. induction l as [|c l IH]; intros ys; simpl.
  - intros [= <-]. split; [by intros ?%elem_of_nil|].
    by intros (? & ?%elem_of_nil & _).
  - destruct (f c) as [b|] eqn:Hb; simpl; [|done].
    destruct (apply f l) as [ys'|]; simpl; [|done].
    intros [= <-]. rewrite elem_of_cons, (IH ys' eq_refl). split.
    + intros [->|(c' & Hc' & Hy)]; [exists c; split; [by left|done]|].
      exists c'. split; [by right|done].
    + intros (c' & [->|Hc']%elem_of_cons & Hy); [left; congruence|].
      right. by exists c'.
Qed.

(** X16. On a well-formed frame an answered dashboard request reports a
    churn rate for exactly the contract types that occur in the dataset, and
    for exactly the tenure and monthly-charge buckets that some row falls
    into; rows without a contract type are in no group, while a missing
    tenure or charge counts in the last bucket. *)
Theorem dashboard_groups_are_complete srv body srv' cs ts ms :
  well_formed (App.df srv) →
  App.dashboard srv = (App.Ok200 body, srv') →
  get_col "Contract" (App.df srv) = Ok cs →
  get_col "tenure" (App.df srv) = Ok ts →
  get_col "MonthlyCharges" (App.df srv) = Ok ms →
  (∀ k, k ∈ dom (App.contract body) ↔ k ∈ cs ∧ k ≠ CNaN) ∧
  (∀ b, CStr b ∈ dom (App.tenure body) ↔
        ∃ t, t ∈ ts ∧ App.tenure_bucket t = Ok b) ∧
  (∀ b, CStr b ∈ dom (App.monthly body) ↔
        ∃ c, c ∈ ms ∧ App.monthly_bucket c = Ok b) ∧
  (CNaN ∈ ts → CStr "25+" ∈ dom (App.tenure body)) ∧
  (CNaN ∈ ms → CStr "101+" ∈ dom (App.monthly body)) ∧
  well_formed (App.df srv').
Proof.
  intros Hwf Hd%dashboard_ok Hcs Hts Hms.
  apply dashboard_body_ok in Hd
    as (tb & mb & Htb & Hmb & Hd' & Hc & Ht & Hm & _).
  cbv zeta in *. set (d := App.df srv) in *.
  set (d1 := set_col "TenureBucket" (map CStr tb) d) in *.
  unfold apply_col in Htb, Hmb. rewrite Hts in Htb. rewrite Hms in Hmb.
  simpl in Htb, Hmb.
  destruct (groupby_mean_key_col _ _ _ _ Ht) as (ks1 & Hks1).
  pose proof (get_col_assigned _ _ _ _ (assigned_set_col _ _ _) Hks1) as ->.
  destruct (groupby_mean_key_col _ _ _ _ Hm) as (ks2 & Hks2).
  rewrite Hd' in Hks2.
  pose proof (get_col_assigned _ _ _ _ (assigned_set_col _ _ _) Hks2) as ->.
  rewrite <- Hd' in Hks2.
  assert (Hvs : ∃ vs, get_col "Churn" d = Ok vs).
  { unfold groupby_mean in Hc. rewrite Hcs in Hc. simpl in Hc.
    destruct (get_col "Churn" d) as [vs|]; [by exists vs|done]. }
  destruct Hvs as [vs Hvs].
  assert (Hvs1 : get_col "Churn" d1 = Ok vs)
    by (unfold d1; by rewrite get_col_set_col_ne).
  assert (Hvs2 : get_col "Churn" (App.df srv') = Ok vs)
    by (rewrite Hd'; by rewrite get_col_set_col_ne).
  pose proof (well_formed_get_col _ _ _ Hwf Hcs) as Lcs.
  pose proof (well_formed_get_col _ _ _ Hwf Hts) as Lts.
  pose proof (well_formed_get_col _ _ _ Hwf Hms) as Lms.
  pose proof (well_formed_get_col _ _ _ Hwf Hvs) as Lvs.
  pose proof (length_apply _ _ _ Htb) as Ltb.
  pose proof (length_apply _ _ _ Hmb) as Lmb.
  assert (HT : ∀ b, CStr b ∈ dom (App.tenure body) ↔
                    ∃ t, t ∈ ts ∧ App.tenure_bucket t = Ok b).
  { intros b.
    rewrite (groupby_mean_dom _ _ _ _ _ _ (CStr b) Ht Hks1 Hvs1)
      by (rewrite length_map; lia).
    rewrite <- (apply_elem_of _ _ _ b Htb). split.
    - intros [(b' & [= ->] & Hb)%list_elem_of_fmap _]. done.
    - intros Hb. split; [|done]. apply list_elem_of_fmap. by exists b. }
  assert (HM : ∀ b, CStr b ∈ dom (App.monthly body) ↔
                    ∃ c, c ∈ ms ∧ App.monthly_bucket c = Ok b).
  { intros b.
    rewrite (groupby_mean_dom _ _ _ _ _ _ (CStr b) Hm Hks2 Hvs2)
      by (rewrite length_map; lia).
    rewrite <- (apply_elem_of _ _ _ b Hmb). split.
    - intros [(b' & [= ->] & Hb)%list_elem_of_fmap _]. done.
    - intros Hb. split; [|done]. apply list_elem_of_fmap. by exists b. }
  split; [|split; [exact HT|split; [exact HM|split; [|split]]]].
  - intros k. apply (groupby_mean_dom _ _ _ _ _ _ k Hc Hcs Hvs). lia.
  - intros Hnan. apply HT. by exists CNaN.
  - intros Hnan. apply HM. by exists CNaN.
  - rewrite Hd'. apply well_formed_set_col.
    + apply well_formed_set_col; [done|]. rewrite length_map. lia.
    + unfold d1. rewrite length_map, index_len_set_col. lia.
Qed.

(** ** The feature-importance view *)


(** ** Views under [try/except] *)

(** Entries of [dict(pairs)] under one key depend on the pairs of that key
    only. *)
Lemma dict_get_dict_fold_ext {V} (pairs acc acc' : list (string * V)) k :
  dict_get k acc = dict_get k acc' →
  dict_get k (dict_fold pairs acc) = dict_get k (dict_fold pairs acc').
Proof.
  revert acc acc'. induction pairs as [|[k0 v0] pairs IH]; intros acc acc' Heq;
    [done|].
  change (dict_get k (dict_fold pairs (dict_set k0 v0 acc)) =
          dict_get k (dict_fold pairs (dict_set k0 v0 acc'))).
  apply IH. destruct (decide (k0 = k)) as [->|Hne].
  - by rewrite !dict_get_set_eq.
  - by rewrite !dict_get_set_ne.
Qed.

Lemma dict_get_dict_fold_filter {V} (pairs acc : list (string * V)) k :
  dict_get k (dict_fold pairs acc) =
    dict_get k (dict_fold (List.filter (λ p, bool_decide (p.1 = k)) pairs) acc).
Proof.
  revert acc. induction pairs as [|[k0 v0] pairs IH]; intros acc; [done|].
  cbn [List.filter fst].
  change (dict_fold ((k0, v0) :: pairs) acc)
    with (dict_fold pairs (dict_set k0 v0 acc)).
  destruct (decide (k0 = k)) as [->|Hne].
  - rewrite bool_decide_eq_true_2 by done. apply IH.
  - rewrite bool_decide_eq_false_2 by done. rewrite IH.
    apply dict_get_dict_fold_ext. by rewrite dict_get_set_ne.
Qed.

Lemma record_at_set_col_ne c c' v d i :
  c ≠ c' → dict_get c' (record_at i (set_col c v d)) = dict_get c' (record_at i d).
Proof.
  intros Hne. unfold record_at, dict_of.
  change (fold_left _ ?l []) with (dict_fold l []).
  rewrite (dict_get_dict_fold_filter (map _ (columns (set_col c v d)))),
          (dict_get_dict_fold_filter (map _ (columns d))).
  assert (Hmap : ∀ l : list (string * list cell),
            List.filter (λ p : string * cell, bool_decide (p.1 = c'))
              (map (λ p, (p.1, nth i p.2 CNaN)) l) =
            map (λ p, (p.1, nth i p.2 CNaN)) (List.filter (labelled c') l)).
  { induction l as [|p l IH]; [done|]. simpl. unfold labelled at 1.
    destruct (bool_decide (p.1 = c')); simpl; by rewrite IH. }
  rewrite !Hmap, filter_set_col; [done|]. intros p. by apply labelled_ne.
Qed.

Lemma set_col_absent c v d :
  c ∉ (columns d).*1 →
  set_col c v d = mkDataFrame (index_len d) (columns d ++ [(c, v)]).
Proof.
  intros Hc. unfold set_col.
  destruct (existsb (labelled c) (columns d)) eqn:Hex; [|done].
  apply existsb_exists in Hex as (p & Hp & Hl). exfalso. apply Hc.
  unfold labelled in Hl. apply bool_decide_eq_true in Hl. subst c.
  apply list_elem_of_fmap. exists p. split; [done|]. by apply list_elem_of_In.
Qed.

Section ViewsMore.
Variable pd_DataFrame : list json → result DataFrame.
Variable pd_read_csv : App.Upload → result DataFrame.
Variable shap_Explainer :
  Classifier → Matrix → result (Matrix → result Explanation).

Local Abbreviation predict := (App.predict pd_DataFrame).
Local Abbreviation explain := (App.explain pd_DataFrame shap_Explainer).
Local Abbreviation shap_batch := (App.shap_batch shap_Explainer).
Local Abbreviation batch_predict := (App.batch_predict pd_read_csv shap_Explainer).

(** X18. The three views wrapped in [try/except] never answer 500 and never
    change the server: whatever the request and whatever the libraries
    raise, the answer is 200 or 400 and the model, the shared frame and the
    disk are as before. *)
Theorem try_views_answer_200_or_400 srv data files :
  (predict srv data).1 ≠ App.Error500 ∧ (predict srv data).2 = srv ∧
  (explain srv data).1 ≠ App.Error500 ∧ (explain srv data).2 = srv ∧
  (batch_predict srv files).1 ≠ App.Error500 ∧ (batch_predict srv files).2 = srv.
Proof.
  repeat split.
  - unfold App.predict. simpl.
    destruct (pd_DataFrame [data]) as [d|]; simpl; [|done].
    destruct (pl_predict _ d) as [ps|]; simpl; [|done].
    destruct (first ps); simpl; [|done].
    destruct (pl_predict_proba _ d) as [pr|]; simpl; [|done].
    destruct (first pr) as [row|]; simpl; [|done].
    by destruct (second row).
  - unfold App.explain. simpl.
    destruct (pd_DataFrame [data]) as [d|]; simpl; [|done].
    destruct (transform _ d) as [X|]; simpl; [|done].
    destruct (shap_Explainer _ X) as [ex|]; simpl; [|done].
    destruct (ex X) as [sv|]; simpl; [|done].
    destruct (first (to_records d)); simpl; [|done].
    destruct (first (values sv)); simpl; [|done].
    by destruct (first (base_values sv)).
  - unfold App.batch_predict. simpl.
    destruct (dict_get "file" files) as [file|]; simpl; [|done].
    destruct (pd_read_csv file) as [raw|]; simpl; [|done].
    destruct (df_empty _); [done|].
    destruct (pl_predict _ _) as [ps|]; simpl; [|done].
    destruct (pl_predict_proba _ _) as [pr|]; simpl; [|done].
    destruct (column1 pr) as [qs|]; simpl; [|done].
    destruct (set_col_list "prediction" _ _) as [r1|]; simpl; [|done].
    by destruct (set_col_list "probability" _ r1).
Qed.

(** X19. batch-predict answers 200 exactly when a file part is present, it
    parses to a non-empty table, and the pipeline returns one prediction
    and one two-class probability row per table row; every other request
    gets 400. *)
Theorem batch_predict_ok_iff srv files :
  (∃ body, (batch_predict srv files).1 = App.Ok200 body) ↔
  ∃ file raw preds proba probs,
    dict_get "file" files = Some file ∧
    pd_read_csv file = Ok raw ∧
    df_empty raw = false ∧
    pl_predict (App.model srv) (strip_columns raw) = Ok preds ∧
    pl_predict_proba (App.model srv) (strip_columns raw) = Ok proba ∧
    column1 proba = Ok probs ∧
    length preds = index_len raw ∧
    length probs = index_len raw.
Proof.
  unfold App.batch_predict. simpl. split.
  - intros [body Hbody]. revert Hbody.
    destruct (dict_get "file" files) as [file|]; simpl; [|done].
    destruct (pd_read_csv file) as [raw|] eqn:Hraw; simpl; [|done].
    rewrite df_empty_strip_columns.
    destruct (df_empty raw) eqn:Hne; [done|].
    destruct (pl_predict _ _) as [preds|] eqn:Hp; simpl; [|done].
    destruct (pl_predict_proba _ _) as [proba|] eqn:Hpr; simpl; [|done].
    destruct (column1 proba) as [probs|] eqn:Hc; simpl; [|done].
    unfold set_col_list. rewrite !length_map. simpl.
    destruct (length preds =? index_len raw) eqn:H1; simpl; [|done].
    rewrite index_len_set_col. simpl.
    destruct (length probs =? index_len raw) eqn:H2; simpl; [|done].
    intros _. exists file, raw, preds, proba, probs.
    apply Nat.eqb_eq in H1, H2. done.
  - intros (file & raw & preds & proba & probs & -> & -> & Hne & Hp & Hpr
            & Hc & H1 & H2). simpl.
    rewrite df_empty_strip_columns, Hne, Hp. simpl. rewrite Hpr. simpl.
    rewrite Hc. simpl. unfold set_col_list. rewrite !length_map. simpl.
    rewrite (proj2 (Nat.eqb_eq _ _) H1). simpl.
    rewrite index_len_set_col. simpl.
    rewrite (proj2 (Nat.eqb_eq _ _) H2). simpl. by eexists.
Qed.

(** X20. In a 200 answer of batch-predict there is one record per uploaded
    row, and every record is that row under the trimmed column names with
    "prediction" and "probability" added: a key other than those two maps
    to the cell the row had, and when the trimmed names are distinct and
    are neither of the two, the record lists the row's cells under the
    trimmed names in column order, then the two added keys. *)
Theorem batch_predict_keeps_rows srv files file raw body :
  dict_get "file" files = Some file →
  pd_read_csv file = Ok raw →
  (batch_predict srv files).1 = App.Ok200 body →
  length (App.predictions body) = index_len raw ∧
  (∀ i rec c,
     App.predictions body !! i = Some rec →
     c ≠ "prediction" → c ≠ "probability" →
     dict_get c rec = dict_get c (record_at i (strip_columns raw))) ∧
  (NoDup (strip <$> (columns raw).*1) →
   "prediction" ∉ strip <$> (columns raw).*1 →
   "probability" ∉ strip <$> (columns raw).*1 →
   ∀ i rec,
     App.predictions body !! i = Some rec →
     ∃ p q,
       rec = map (λ col, (strip col.1, nth i col.2 CNaN)) (columns raw)
             ++ [("prediction", p); ("probability", q)]).
Proof.
  intros Hfile Hraw. unfold App.batch_predict. simpl.
  rewrite Hfile, Hraw. simpl.
  destruct (df_empty _); [done|].
  destruct (pl_predict _ _) as [preds|]; simpl; [|done].
  destruct (pl_predict_proba _ _) as [proba|]; simpl; [|done].
  destruct (column1 proba) as [probs|]; simpl; [|done].
  unfold set_col_list.
  destruct (_ =? _); simpl; [|done]. destruct (_ =? _); simpl; [|done].
  intros [= <-]. simpl. split; [|split].
  - unfold to_records. rewrite length_map, length_seq.
    by rewrite !index_len_set_col.
  - intros i rec c Hrec Hc1 Hc2.
    unfold to_records in Hrec. rewrite list_lookup_fmap in Hrec.
    destruct (seq 0 _ !! i) as [j|] eqn:Hj; [|done].
    apply lookup_seq in Hj as [-> _]. injection Hrec as <-. simpl.
    rewrite !record_at_set_col_ne; done.
  - intros Hnd Hpred Hprob i rec Hrec.
    unfold to_records in Hrec. rewrite list_lookup_fmap in Hrec.
    destruct (seq 0 _ !! i) as [j|] eqn:Hj; [|done].
    apply lookup_seq in Hj as [-> _]. injection Hrec as <-. simpl.
    rewrite <- strip_columns_labels in Hnd, Hpred, Hprob.
    rewrite (set_col_absent "prediction") by done.
    rewrite (set_col_absent "probability").
    2:{ cbn [columns]. rewrite fmap_app, elem_of_app. cbn [fmap list_fmap fst].
        rewrite list_elem_of_singleton. intros [?|?]; done. }
    unfold record_at. cbn [columns]. rewrite dict_of_NoDup.
    + rewrite !map_app. cbn [map fst snd]. rewrite <- app_assoc. cbn [app].
      do 2 eexists. f_equal.
      unfold strip_columns. cbn [columns]. rewrite map_map. done.
    + rewrite !map_app, !map_map. cbn [map fst snd]. rewrite <- app_assoc.
      cbn [app].
      apply NoDup_app. split; [exact Hnd|]. split.
      * intros k Hk Hin.
        apply elem_of_cons in Hin as [->|Hin]; [by apply Hpred|].
        apply list_elem_of_singleton in Hin as ->. by apply Hprob.
      * apply NoDup_cons. split; [|apply NoDup_singleton].
        by rewrite list_elem_of_singleton.
Qed.
End ViewsMore.

(** * Cleaning the dataset *)

Lemma filter_labelled_map_columns c (g : list cell → list cell)
    (l : list (string * list cell)) :
  List.filter (labelled c) (map (λ p, (p.1, g p.2)) l) =
    map (λ p, (p.1, g p.2)) (List.filter (labelled c) l).
Proof.
  induction l as [|p l IH]; [done|]. cbn [map List.filter]. rewrite IH.
  change (labelled c (p.1, g p.2)) with (labelled c p).
  by destruct (labelled c p).
Qed.

Lemma get_col_dropna c c' d d' v :
  dropna c d = Ok d' → get_col c' d = Ok v →
  ∃ col, get_col c d = Ok col ∧
         get_col c' d' = Ok (select_rows (map (λ x, negb (is_nan x)) col) v).
Proof.
  unfold dropna. destruct (get_col c d) as [col|]; simpl; [|done].
  intros [= <-] Hv. exists col. split; [done|].
  unfold get_col in *. simpl. rewrite filter_labelled_map_columns.
  by destruct (List.filter (labelled c') (columns d)) as [|[c0 v0] [|??]];
    simplify_eq.
Qed.

Lemma get_col_drop_columns_ne c c' d d' :
  c ≠ c' → drop_columns c d = Ok d' → get_col c' d' = get_col c' d.
Proof.
  intros Hne. unfold drop_columns.
  destruct (existsb _ _); [|done]. intros [= <-]. unfold get_col. simpl.
  replace (List.filter (labelled c')
             (List.filter (λ p, negb (labelled c p)) (columns d)))
    with (List.filter (labelled c') (columns d)); [done|].
  induction (columns d) as [|p l IH]; [done|]. simpl.
  destruct (labelled c p) eqn:Hp; simpl.
  - by rewrite (labelled_ne c c' p Hne Hp).
  - by rewrite IH.
Qed.

Lemma drop_columns_gone c d d' p :
  drop_columns c d = Ok d' → p ∈ columns d' → p.1 ≠ c.
Proof.
  unfold drop_columns. destruct (existsb _ _); [|done]. intros [= <-]. simpl.
  intros Hin%list_elem_of_In. apply filter_In in Hin as [_ Hp].
  apply negb_true_iff, bool_decide_eq_false in Hp. done.
Qed.

Lemma drop_columns_subset c d d' p :
  drop_columns c d = Ok d' → p ∈ columns d' → p ∈ columns d.
Proof.
  unfold drop_columns. destruct (existsb _ _); [|done]. intros [= <-]. simpl.
  intros Hin%list_elem_of_In. apply filter_In in Hin as [Hin _].
  by apply list_elem_of_In.
Qed.

Lemma drop_columns_index c d d' :
  drop_columns c d = Ok d' → index_len d' = index_len d.
Proof.
  unfold drop_columns. destruct (existsb _ _); [|done]. by intros [= <-].
Qed.

Lemma well_formed_drop_columns c d d' :
  well_formed d → drop_columns c d = Ok d' → well_formed d'.
Proof.
  intros Hwf Hd. unfold well_formed. rewrite (drop_columns_index _ _ _ Hd).
  apply Forall_forall. intros p Hp. unfold well_formed in Hwf.
  rewrite Forall_forall in Hwf. apply Hwf. by eapply drop_columns_subset.
Qed.

Lemma length_select_rows {A B} (mask : list bool) (l : list A) (k : list B) :
  length l = length k →
  length (select_rows mask l) = length (select_rows mask k).
Proof.
  revert l k. induction mask as [|b mask IH]; intros [|x l] [|y k] Hlen;
    simpl in *; try done.
  destruct b; simpl; rewrite (IH l k); auto.
Qed.

Lemma well_formed_dropna c d d' :
  well_formed d → dropna c d = Ok d' → well_formed d'.
Proof.
  unfold dropna. intros Hwf.
  destruct (get_col c d) as [col|] eqn:Hcol; simpl; [|done]. intros [= <-].
  unfold well_formed in *. simpl. apply Forall_map.
  eapply Forall_impl; [exact Hwf|]. intros p Hp. simpl.
  apply length_select_rows.
  rewrite Hp. symmetry. by apply (well_formed_get_col c).
Qed.

Lemma select_rows_not_nan (col : list cell) :
  Forall (λ x, is_nan x = false)
         (select_rows (map (λ x, negb (is_nan x)) col) col).
Proof.
  induction col as [|x col IH]; simpl; [constructor|].
  destruct (is_nan x) eqn:Hx; simpl; [done|]. by constructor.
Qed.

Lemma select_rows_elem_of {A} mask (l : list A) x :
  x ∈ select_rows mask l → x ∈ l.
Proof.
  revert l. induction mask as [|b mask IH]; intros [|y l]; simpl;
    try by intros ?%elem_of_nil.
  destruct b.
  - intros [->|Hx]%elem_of_cons; [by left|]. right. by apply IH.
  - intros Hx. right. by apply IH.
Qed.

Section CleanProofs.
Variable parse_number : string → option Q.

(** How [clean] succeeds, step by step. *)
Lemma clean_ok df data :
  Trainer.clean parse_number df = Ok data →
  ∃ total d1 d2 churn,
    get_col "TotalCharges" df = Ok total ∧
    dropna "TotalCharges"
      (set_col "TotalCharges" (map (to_numeric parse_number) total) df) = Ok d1 ∧
    drop_columns "customerID" d1 = Ok d2 ∧
    drop_columns "Churn" d2 = Ok (Trainer.X data) ∧
    get_col "Churn" d2 = Ok churn ∧
    Trainer.y data = map map_yes_no churn.
Proof.
  unfold Trainer.clean.
  destruct (get_col "TotalCharges" df) as [total|] eqn:H1;
    cbn [mbind result_bind]; [|done].
  destruct (dropna _ _) as [d1|] eqn:H2; cbn [mbind result_bind]; [|done].
  destruct (drop_columns "customerID" d1) as [d2|] eqn:H3;
    cbn [mbind result_bind]; [|done].
  destruct (drop_columns "Churn" d2) as [X|] eqn:H4;
    cbn [mbind result_bind]; [|done].
  destruct (get_col "Churn" d2) as [churn|] eqn:H5;
    cbn [mbind result_bind]; [|done].
  intros [= <-]. by exists total, d1, d2, churn.
Qed.

(** X9. Cleaning keeps whole rows: the rows whose "TotalCharges" reads as
    a number survive, in order, and every other feature column and the
    label vector are cut by that same row mask, so features and labels stay
    aligned; the result is well formed and has one label per row. *)
Theorem clean_keeps_rows_aligned df data :
  well_formed df →
  Trainer.clean parse_number df = Ok data →
  ∃ total churn,
    get_col "TotalCharges" df = Ok total ∧
    get_col "Churn" df = Ok churn ∧
    index_len (Trainer.X data) = length (List.filter id (kept parse_number total)) ∧
    Trainer.y data = map map_yes_no (select_rows (kept parse_number total) churn) ∧
    (∀ c v, c ≠ "TotalCharges" → c ≠ "customerID" → c ≠ "Churn" →
       get_col c df = Ok v →
       get_col c (Trainer.X data) = Ok (select_rows (kept parse_number total) v)) ∧
    well_formed (Trainer.X data) ∧
    length (Trainer.y data) = index_len (Trainer.X data).
Proof.
  intros Hwf (total & d1 & d2 & churn2 & Htotal & Hd1 & Hd2 & HX & Hchurn2 & Hy)
         %clean_ok.
  set (df1 := set_col "TotalCharges" (map (to_numeric parse_number) total) df)
    in *.
  assert (Hwf1 : well_formed df1).
  { apply well_formed_set_col; [done|]. rewrite length_map.
    by apply (well_formed_get_col "TotalCharges"). }
  assert (Htotal1 : get_col "TotalCharges" df1 =
                    Ok (map (to_numeric parse_number) total)).
  { apply get_col_set_col_eq. by eapply get_col_once. }
  assert (Hmask : map (λ x, negb (is_nan x)) (map (to_numeric parse_number) total)
                  = kept parse_number total).
  { unfold kept. by rewrite map_map. }
  assert (Hcol : ∀ c v, c ≠ "TotalCharges" → get_col c df = Ok v →
                        get_col c d1 = Ok (select_rows (kept parse_number total) v)).
  { intros c v Hc Hv.
    assert (Hv1 : get_col c df1 = Ok v)
      by (unfold df1; by rewrite get_col_set_col_ne).
    destruct (get_col_dropna _ _ _ _ _ Hd1 Hv1) as (col & Hcol & ->).
    rewrite Htotal1 in Hcol. injection Hcol as <-. do 2 f_equal. exact Hmask. }
  assert (Hchurn : ∃ churn, get_col "Churn" df = Ok churn).
  { rewrite (get_col_drop_columns_ne "customerID" "Churn" _ _ ltac:(done) Hd2)
      in Hchurn2.
    unfold dropna in Hd1. rewrite Htotal1 in Hd1. simpl in Hd1.
    injection Hd1 as <-. unfold get_col in Hchurn2. simpl in Hchurn2.
    rewrite filter_labelled_map_columns in Hchurn2.
    unfold df1 in Hchurn2. rewrite filter_set_col in Hchurn2
      by (intros p; by apply labelled_ne).
    unfold get_col.
    destruct (List.filter (labelled "Churn") (columns df)) as [|[c0 v0] [|??]];
      simplify_eq. by eexists. }
  destruct Hchurn as [churn Hchurn]. exists total, churn.
  assert (Hwf2 : well_formed d2).
  { eapply well_formed_drop_columns; [|exact Hd2].
    by eapply well_formed_dropna. }
  assert (HwfX : well_formed (Trainer.X data))
    by by eapply well_formed_drop_columns.
  assert (Hlen : index_len (Trainer.X data) = length (List.filter id (kept parse_number total))).
  { rewrite (drop_columns_index _ _ _ HX), (drop_columns_index _ _ _ Hd2).
    unfold dropna in Hd1. rewrite Htotal1 in Hd1. simpl in Hd1.
    injection Hd1 as <-. simpl. rewrite Hmask. unfold kept.
    clear. induction total as [|x total IH]; [done|]. simpl.
    destruct (is_nan (to_numeric parse_number x)); simpl; by rewrite IH. }
  assert (Hchurn2' : churn2 = select_rows (kept parse_number total) churn).
  { rewrite (get_col_drop_columns_ne "customerID" "Churn" _ _ ltac:(done) Hd2)
      in Hchurn2.
    rewrite (Hcol "Churn" churn ltac:(done) Hchurn) in Hchurn2.
    by injection Hchurn2. }
  repeat split; try done.
  - by rewrite Hy, Hchurn2'.
  - intros c v H1 H2 H3 Hv.
    rewrite (get_col_drop_columns_ne _ _ _ _ (not_eq_sym H3) HX).
    rewrite (get_col_drop_columns_ne _ _ _ _ (not_eq_sym H2) Hd2).
    by apply Hcol.
  - rewrite Hy, length_map.
    rewrite (drop_columns_index _ _ _ HX).
    by apply (well_formed_get_col "Churn").
Qed.

(** X10. After cleaning, the features hold neither the customer identifier
    nor the label, and "TotalCharges" is a column of numbers only: fields
    that do not read as a number were coerced to NaN and their rows
    dropped. *)
Theorem clean_features df data :
  Trainer.clean parse_number df = Ok data →
  (∀ p, p ∈ columns (Trainer.X data) → p.1 ≠ "customerID" ∧ p.1 ≠ "Churn") ∧
  ∃ total,
    get_col "TotalCharges" (Trainer.X data) = Ok total ∧
    Forall (λ x, ∃ q, x = CNum q) total.
Proof.
  intros (total & d1 & d2 & churn2 & Htotal & Hd1 & Hd2 & HX & Hchurn2 & Hy)
         %clean_ok.
  split.
  - intros p Hp. split; [|by eapply drop_columns_gone].
    eapply drop_columns_gone; [exact Hd2|]. by eapply drop_columns_subset.
  - set (df1 := set_col "TotalCharges" (map (to_numeric parse_number) total) df)
      in *.
    assert (Htotal1 : get_col "TotalCharges" df1 =
                      Ok (map (to_numeric parse_number) total)).
    { apply get_col_set_col_eq. by eapply get_col_once. }
    destruct (get_col_dropna _ _ _ _ _ Hd1 Htotal1) as (col & Hcol & Hkept).
    rewrite Htotal1 in Hcol. injection Hcol as <-.
    eexists. split.
    + rewrite (get_col_drop_columns_ne "Churn" "TotalCharges" _ _ ltac:(done) HX).
      rewrite (get_col_drop_columns_ne "customerID" "TotalCharges" _ _ ltac:(done) Hd2). exact Hkept.
    + apply Forall_forall. intros x Hx.
      pose proof (select_rows_not_nan (map (to_numeric parse_number) total))
        as Hnan.
      rewrite Forall_forall in Hnan. specialize (Hnan x Hx).
      apply select_rows_elem_of, list_elem_of_fmap in Hx as (z & -> & _).
      unfold to_numeric in *. destruct z as [|q|s]; [done|by eexists|].
      destruct (parse_number s); [by eexists|done].
Qed.
Lemma drop_columns_has c d d' :
  drop_columns c d = Ok d' → c ∈ (columns d).*1.
Proof.
  unfold drop_columns. destruct (existsb _ _) eqn:Hex; [|done]. intros _.
  apply existsb_exists in Hex as (p & Hin & Hp).
  apply bool_decide_eq_true in Hp. apply list_elem_of_fmap. exists p.
  split; [done|]. by apply list_elem_of_In.
Qed.

Lemma dropna_labels c d d' :
  dropna c d = Ok d' → (columns d').*1 = (columns d).*1.
Proof.
  unfold dropna. destruct (get_col c d); simpl; [|done]. intros [= <-]. simpl.
  by rewrite <- list_fmap_compose.
Qed.

Lemma set_col_labels c v d c' :
  c' ∈ (columns (set_col c v d)).*1 → c' = c ∨ c' ∈ (columns d).*1.
Proof.
  unfold set_col. destruct (existsb _ _); simpl.
  - intros (p & -> & (q & -> & Hq)%list_elem_of_fmap)%list_elem_of_fmap.
    destruct (labelled c q); [by left|]. right.
    apply list_elem_of_fmap. by exists q.
  - rewrite fmap_app, elem_of_app. simpl.
    intros [Hin|Hin]; [by right|].
    apply list_elem_of_singleton in Hin. by left.
Qed.

(** X11. Cleaning needs the three columns it names: without a
    "TotalCharges", a "customerID" or a "Churn" column (the names are not
    trimmed here) it raises instead of returning features and labels. *)
Theorem clean_needs_columns df c :
  c ∈ ["TotalCharges"; "customerID"; "Churn"] →
  c ∉ (columns df).*1 →
  ∃ e, Trainer.clean parse_number df = Raise e.
Proof.
  intros Hc Hmissing.
  destruct (Trainer.clean parse_number df) as [data|e] eqn:Hclean;
    [|by exists e].
  exfalso. apply Hmissing.
  apply clean_ok
    in Hclean as (total & d1 & d2 & churn & Htotal & Hd1 & Hd2 & HX & _).
  assert (Hlabels : ∀ c', c' ∈ (columns d1).*1 → c' ≠ "TotalCharges" →
                          c' ∈ (columns df).*1).
  { intros c' Hc' Hne. rewrite (dropna_labels _ _ _ Hd1) in Hc'.
    apply set_col_labels in Hc' as [Heq|Hin]; [by subst c'|done]. }
  rewrite !elem_of_cons, elem_of_nil in Hc.
  destruct Hc as [->|[->|[->|[]]]].
  - apply get_col_elem_of in Htotal. apply list_elem_of_fmap.
    by exists ("TotalCharges", total).
  - apply Hlabels; [|done]. by eapply drop_columns_has.
  - apply Hlabels; [|done]. apply drop_columns_has in HX.
    apply list_elem_of_fmap in HX as (p & -> & Hp). apply list_elem_of_fmap.
    exists p. split; [done|]. by eapply drop_columns_subset.
Qed.
End CleanProofs.

(** ** The further statements on the concrete run *)

Example demo_clean : Trainer.clean Demo.parse_number Demo.telco = Ok Demo.cleaned.
Proof. reflexivity. Qed.

Example demo_dashboard_bad_charge :
  (App.dashboard Demo.server_bad_charge).1 = App.Error500 ∧
  get_col "TenureBucket" (App.df (App.dashboard Demo.server_bad_charge).2) =
    Ok [CStr "0-12"; CStr "13-24"] ∧
  ¬ (∃ v, get_col "MonthlyBucket"
            (App.df (App.dashboard Demo.server_bad_charge).2) = Ok v).
Proof.
  split; [by vm_compute|]. split; [by vm_compute|].
  intros [v Hv]. vm_compute in Hv. discriminate Hv.
Qed.

Lemma get_feature_names_num_then_cat_witness :
  Trainer.get_feature_names Demo.preprocessor =
    Ok ["tenure"; "MonthlyCharges"; "Partner_No"; "Partner_Yes"].
Proof.
  apply (get_feature_names_num_then_cat Demo.preprocessor OtherTransformer
           ["tenure"; "MonthlyCharges"]
           (λ cols, Ok (flat_map (λ c, [c ++ "_No"; c ++ "_Yes"]%string) cols))
           ["Partner"] []).
  - reflexivity.
  - constructor.
Defined.

Lemma feature_importance_ranked_witness :
  Trainer.feature_importance Demo.logistic =
    map (λ x, (x.1, py_round x.2 4))
        (Trainer.top20 ["tenure"; "MonthlyCharges"; "Partner_No"; "Partner_Yes"]
                       (map Qabs [-3 # 2; 1 # 4; 12346 # 100000; 2]%Q)) ∧
  length (Trainer.feature_importance Demo.logistic) = 20 `min` (4 `min` 4) ∧
  StronglySorted (λ x y, (Qabs y.2 <= Qabs x.2)%Q)
    (Trainer.top20 ["tenure"; "MonthlyCharges"; "Partner_No"; "Partner_Yes"]
                   (map Qabs [-3 # 2; 1 # 4; 12346 # 100000; 2]%Q)).
Proof.
  apply (feature_importance_ranked Demo.logistic
           ["tenure"; "MonthlyCharges"; "Partner_No"; "Partner_Yes"]
           (map Qabs [-3 # 2; 1 # 4; 12346 # 100000; 2]%Q)).
  - reflexivity.
  - reflexivity.
  - apply (bool_decide_unpack _). vm_compute. exact I.
Defined.

Lemma linear_importance_nonnegative_witness : (0 <= 15000 # 10000)%Q.
Proof.
  apply (linear_importance_nonnegative Demo.logistic
           [-3 # 2; 1 # 4; 12346 # 100000; 2]%Q [] "tenure" (15000 # 10000)%Q).
  - reflexivity.
  - rewrite demo_logistic_importance, !elem_of_cons. auto.
Defined.

Lemma report_covers_every_family_witness :
  ∃ fields entry,
    Demo.report = JObj fields ∧
    fields.*1 =
      ["Logistic Regression"; "Random Forest"; "XGBoost"; "current_model"] ∧
    dict_get "Logistic Regression" fields = Some (JObj entry) ∧
    entry.*1 = ["auc"; "accuracy"; "feature_importance"] ∧
    dict_get "auc" entry = Some (JNum (800 # 1000)) ∧
    dict_get "accuracy" entry = Some (JNum (500 # 1000)) ∧
    dict_get "feature_importance" entry =
      Some (JObj [ ("Partner_Yes", JNum (20000 # 10000));
                   ("tenure", JNum (15000 # 10000));
                   ("MonthlyCharges", JNum (2500 # 10000));
                   ("Partner_No", JNum (1235 # 10000)) ]).
Proof.
  destruct (report_covers_every_family Demo.X_test Demo.y_test
              Demo.GridSearchCV_fit Demo.Pipeline_fit Demo.roc_auc_score
              Demo.accuracy_score Demo.forest Demo.report eq_refl)
    as (fields & Hrep & Hkeys & Hall).
  assert (Hin : ("Logistic Regression", Trainer.LogisticRegression)
                ∈ Trainer.models)
    by (unfold Trainer.models; rewrite !elem_of_cons; auto).
  destruct (Hall _ Hin) as (m & a & c & entry & Hev & Hget & Hk & Hauc & Hacc & Hfi).
  vm_compute in Hev. injection Hev as <- <- <-.
  exists fields, entry.
  split; [exact Hrep|]. split; [exact Hkeys|]. split; [exact Hget|].
  split; [exact Hk|]. split; [exact Hauc|]. split; [exact Hacc|exact Hfi].
Defined.

Lemma failing_family_aborts_run_witness :
  Trainer.main Demo.X_test Demo.y_test Demo.GridSearchCV_breaks
    Demo.Pipeline_fit Demo.roc_auc_score Demo.accuracy_score
  = Trainer.Crashed "XGBoostError: training failed".
Proof.
  apply (failing_family_aborts_run Demo.X_test Demo.y_test
           Demo.GridSearchCV_breaks Demo.Pipeline_fit Demo.roc_auc_score
           Demo.accuracy_score
           [ ("Logistic Regression", Trainer.LogisticRegression);
             ("Random Forest", Trainer.RandomForestClassifier) ]
           ("XGBoost", Trainer.XGBClassifier) []).
  - reflexivity.
  - intros f Hf.
    repeat (apply elem_of_cons in Hf as [->|Hf];
            [do 3 eexists; reflexivity|]).
    by apply elem_of_nil in Hf.
  - reflexivity.
Defined.

Lemma scored_above_start_avoids_exit_witness : Demo.main ≠ Trainer.Exit1.
Proof.
  apply (scored_above_start_avoids_exit Demo.X_test Demo.y_test
           Demo.GridSearchCV_fit Demo.Pipeline_fit Demo.roc_auc_score
           Demo.accuracy_score
           ("Logistic Regression", Trainer.LogisticRegression)).
  - unfold Trainer.models. rewrite !elem_of_cons. auto.
  - intros m a c Hev. vm_compute in Hev. injection Hev as _ <- _.
    reflexivity.
Defined.

Lemma server_reports_trained_model_witness :
  ∃ fam a c,
    fam ∈ Trainer.models ∧
    Demo.evaluate fam = Ok (Demo.forest, a, c) ∧
    (App.health Demo.server).1 =
      App.Ok200 {| App.status := "ok"; App.model_loaded := true;
                   App.health_active_model := JStr fam.1 |} ∧
    (App.feature_importance Demo.server).1 =
      App.Ok200
        {| App.importance_active_model := JStr fam.1;
           App.importance_feature_importance :=
             JObj (map (λ x, (x.1, JNum x.2))
                       (Trainer.feature_importance Demo.forest)) |}.
Proof.
  apply (server_reports_trained_model Demo.X_test Demo.y_test
           Demo.GridSearchCV_fit Demo.Pipeline_fit Demo.roc_auc_score
           Demo.accuracy_score Demo.forest Demo.report Demo.server);
    reflexivity.
Defined.



Lemma dashboard_answers_witness :
  ∃ body, (App.dashboard Demo.server).1 = App.Ok200 body.
Proof.
  apply (dashboard_answers Demo.server
           [CStr "Monthly"; CStr "Yearly"; CStr "Monthly"; CNaN]
           [CNum 1; CNum 13; CNum 30; CNaN]
           [CNum 50; CNum (101 # 2); CNum 100; CNum 101]
           [CNum 1; CNum 0; CNum 0; CNum 1]).
  - reflexivity.
  - reflexivity.
  - reflexivity.
  - reflexivity.
  - repeat constructor.
  - repeat constructor.
  - repeat constructor.
  - simpl. lia.
  - simpl. lia.
  - right. eexists. vm_compute. reflexivity.
Defined.

Lemma dashboard_groups_are_complete_witness :
  (∀ k, k ∈ dom (App.contract Demo.dashboard_body) ↔
        k ∈ [CStr "Monthly"; CStr "Yearly"; CStr "Monthly"; CNaN] ∧ k ≠ CNaN) ∧
  (CNaN ∈ [CNum 1; CNum 13; CNum 30; CNaN] →
   CStr "25+" ∈ dom (App.tenure Demo.dashboard_body)) ∧
  well_formed (App.df (App.dashboard Demo.server).2).
Proof.
  destruct (dashboard_groups_are_complete Demo.server Demo.dashboard_body
              (App.dashboard Demo.server).2
              [CStr "Monthly"; CStr "Yearly"; CStr "Monthly"; CNaN]
              [CNum 1; CNum 13; CNum 30; CNaN]
              [CNum 50; CNum (101 # 2); CNum 100; CNum 101])
    as (Hc & _ & _ & Ht & _ & Hwf).
  - repeat constructor.
  - vm_compute. reflexivity.
  - reflexivity.
  - reflexivity.
  - reflexivity.
  - split; [exact Hc|]. split; [exact Ht|exact Hwf].
Defined.


Lemma batch_predict_keeps_rows_witness :
  ∃ body p q,
    (App.batch_predict Demo.pd_read_csv Demo.shap_Explainer Demo.server
       [("file", Demo.two_rows)]).1 = App.Ok200 body ∧
    length (App.predictions body) = 2 ∧
    App.predictions body !! 1 =
      Some [ ("tenure", CNum 40); ("MonthlyCharges", CNum 30);
             ("prediction", p); ("probability", q) ].
Proof.
  assert (Hok : ∃ body,
            (App.batch_predict Demo.pd_read_csv Demo.shap_Explainer Demo.server
               [("file", Demo.two_rows)]).1 = App.Ok200 body)
    by (eexists; reflexivity).
  destruct Hok as [body Hbody].
  destruct (batch_predict_keeps_rows Demo.pd_read_csv Demo.shap_Explainer
              Demo.server [("file", Demo.two_rows)] Demo.two_rows
              Demo.customers body eq_refl eq_refl Hbody)
    as (Hlen & _ & Hrec).
  destruct (lookup_lt_is_Some_2 (App.predictions body) 1) as [rec Hrec1];
    [rewrite Hlen; simpl; lia|].
  assert (Hnd : NoDup (strip <$> (columns Demo.customers).*1))
    by (apply (bool_decide_unpack _); vm_compute; exact I).
  assert (Hpred : "prediction" ∉ strip <$> (columns Demo.customers).*1)
    by (apply (bool_decide_unpack _); vm_compute; exact I).
  assert (Hprob : "probability" ∉ strip <$> (columns Demo.customers).*1)
    by (apply (bool_decide_unpack _); vm_compute; exact I).
  destruct (Hrec Hnd Hpred Hprob 1 rec Hrec1) as (p & q & Heq).
  exists body, p, q.
  split; [exact Hbody|]. split; [exact Hlen|].
  rewrite Hrec1. f_equal. exact Heq.
Defined.

Lemma clean_keeps_rows_aligned_witness :
  ∃ total churn,
    get_col "TotalCharges" Demo.telco = Ok total ∧
    get_col "Churn" Demo.telco = Ok churn ∧
    index_len (Trainer.X Demo.cleaned) =
      length (List.filter id (kept Demo.parse_number total)) ∧
    Trainer.y Demo.cleaned =
      map map_yes_no (select_rows (kept Demo.parse_number total) churn) ∧
    (∀ c v, c ≠ "TotalCharges" → c ≠ "customerID" → c ≠ "Churn" →
       get_col c Demo.telco = Ok v →
       get_col c (Trainer.X Demo.cleaned) =
         Ok (select_rows (kept Demo.parse_number total) v)) ∧
    well_formed (Trainer.X Demo.cleaned) ∧
    length (Trainer.y Demo.cleaned) = index_len (Trainer.X Demo.cleaned).
Proof.
  apply (clean_keeps_rows_aligned Demo.parse_number Demo.telco Demo.cleaned).
  - repeat constructor.
  - reflexivity.
Defined.

Lemma clean_features_witness :
  (∀ p, p ∈ columns (Trainer.X Demo.cleaned) →
        p.1 ≠ "customerID" ∧ p.1 ≠ "Churn") ∧
  ∃ total,
    get_col "TotalCharges" (Trainer.X Demo.cleaned) = Ok total ∧
    Forall (λ x, ∃ q, x = CNum q) total.
Proof.
  apply (clean_features Demo.parse_number Demo.telco Demo.cleaned).
  reflexivity.
Defined.

Lemma clean_needs_columns_witness :
  ∃ e, Trainer.clean Demo.parse_number Demo.customers = Raise e.
Proof.
  apply (clean_needs_columns Demo.parse_number Demo.customers "TotalCharges").
  - rewrite !elem_of_cons. auto.
  - simpl. rewrite !elem_of_cons, elem_of_nil.
    intros [H|[H|[]]]; discriminate H.
Defined.
